(** * Gradient synchronisation layer of fairseq: a shallow embedding

    Embedded sources:
    - [fairseq/model_parallel/megatron_trainer.py]
      ([MegatronTrainer.clip_grad_norm] and its norm aggregator);
    - [fairseq/models/distributed_fairseq_model.py]
      ([DistributedFairseqModel], [_DistributedFairseqModel.__getattr__],
      [TPUDistributedDataParallel]).

    Conventions.  Python exceptions are values of [Exn]; a computation that
    may raise returns [Exn + A].  Code that mutates [args] or talks to the
    outside world (printing, constructing a wrapper, registering a hook) runs
    in the state-and-error monad [M], whose state holds the [args] namespace
    and the trace of effects.  Tensor arithmetic is the exact arithmetic of
    [R]: rounding of machine floats is outside this development. *)

From Stdlib Require Import Reals Lra List ZArith QArith String Bool Lia.
From Stdlib Require Import Permutation.
Import ListNotations.

Set Implicit Arguments.

(* ================================================================== *)
(** * Part I.  Definitions                                             *)
(* ================================================================== *)

(** ** Python exceptions raised by the embedded code *)

Inductive Exn : Type :=
| ImportError (msg : string)
| ValueError (msg : string)
| RuntimeError (msg : string)
| NameError (name : string)
| ZeroDivisionError
| AttributeError (cls : string) (name : string).

(* ------------------------------------------------------------------ *)
(** ** megatron_trainer.py                                             *)
(* ------------------------------------------------------------------ *)

(** What a trainer process holds that a clipping call could touch: the
    gradients of the locally held parameter shard. *)
Record TrainerState : Type := {
  shard_grads : list (list R)
}.

(** Modelled from the spec: [distributed_utils.all_reduce(tensor, group)]
    is not among the embedded sources.  Section 6 gives it sum semantics and
    the glossary says every member contributes a value and receives the
    combined result.  [group] lists the values contributed by the other
    members of the process group; the caller's tensor becomes the sum. *)
Definition all_reduce (tensor : R) (group : list R) : R :=
  fold_left Rplus group tensor.

(** Lines 32-38.  [total_norm] is a one-element tensor.  [total_norm ** 2]
    and [total_norm ** 0.5] (the square root) build fresh tensors; the
    collective works in place on the squared one.  Nothing else is read or
    written, so the trainer state is returned as it came. *)
Definition _aggregate_model_parallel_grad_norm
    (model_parallel_group : list R) (total_norm : R) (st : TrainerState)
  : R * TrainerState :=
  let total_norm := (total_norm ^ 2)%R in
  let total_norm := all_reduce total_norm model_parallel_group in
  let total_norm := sqrt total_norm in
  (total_norm, st).

(** Lines 31-42.  The optimizer is an external collaborator: its
    [clip_grad_norm] receives the aggregator as [aggregate_norm_fn]. *)
Definition clip_grad_norm (A : Type)
    (optimizer_clip_grad_norm :
       R -> (R -> TrainerState -> R * TrainerState) -> TrainerState -> A)
    (model_parallel_group : list R) (clip_norm : R) (st : TrainerState) : A :=
  optimizer_clip_grad_norm clip_norm
    (_aggregate_model_parallel_grad_norm model_parallel_group) st.

(** Sum of the squares of a list of norms. *)
Definition sum_sq (norms : list R) : R :=
  fold_right (fun m acc => (m ^ 2 + acc)%R) 0%R norms.

(* ------------------------------------------------------------------ *)
(** ** distributed_fairseq_model.py: data                              *)
(* ------------------------------------------------------------------ *)

(** A tensor is its flattened contents (its shape is their number) and the
    autograd flag [requires_grad]. *)
Record Tensor : Type := {
  values : list R;
  tensor_requires_grad : bool
}.

(** A model parameter: contents, [p.requires_grad] and the slot [p.grad],
    which is [None] until a gradient has been computed. *)
Record Param : Type := {
  data : list R;
  requires_grad : bool;
  grad : option Tensor
}.

(** The wrapped model ([nn.Module]), as far as this file looks into it: its
    class name and [model.parameters()] in iteration order.  The assertion
    [isinstance(model, nn.Module)] of line 43 holds of every value of this
    type and is therefore no branch of the embedding. *)
Record NNModule : Type := {
  module_class : string;
  module_parameters : list Param
}.

(** A process group handle.  On the accelerator path the handle is a tuple
    whose component [1] lists the replica groups. *)
Record ProcessGroup : Type := {
  pg_world_size : Z;
  pg_replica_groups : list (list Z)
}.

(** Modelled from the spec: [distributed_utils.get_world_size(group)] is not
    among the embedded sources; section 6 declares it as
    [get_world_size(group) -> int]. *)
Definition get_world_size (group : ProcessGroup) : Z := pg_world_size group.

(** The [args] namespace, with the fields the code reads.  Floats given as
    literals are kept as the decimal they denote. *)
Record Args : Type := {
  tpu : bool;
  distributed_wrapper : string;
  ddp_backend : string;
  device_id : Z;
  broadcast_buffers : bool;
  bucket_cap_mb : Z;
  find_unused_parameters : bool;
  nprocs_per_node : Z;
  slowmo_momentum : option Q;
  slowmo_algorithm : string;
  localsgd_frequency : Z;
  distributed_world_size : Z
}.

(** [args.slowmo_momentum = v] *)
Definition assign_slowmo_momentum (args : Args) (v : option Q) : Args :=
  {| tpu := tpu args;
     distributed_wrapper := distributed_wrapper args;
     ddp_backend := ddp_backend args;
     device_id := device_id args;
     broadcast_buffers := broadcast_buffers args;
     bucket_cap_mb := bucket_cap_mb args;
     find_unused_parameters := find_unused_parameters args;
     nprocs_per_node := nprocs_per_node args;
     slowmo_momentum := v;
     slowmo_algorithm := slowmo_algorithm args;
     localsgd_frequency := localsgd_frequency args;
     distributed_world_size := distributed_world_size args |}.

(** The classes a wrapper can extend (the values of [ddp_class]). *)
Inductive DDPClass : Type :=
| TPUDistributedDataParallel
| nn_parallel_DistributedDataParallel
| LegacyDistributedDataParallel
| gossip_GossipDataParallel.

(** Values stored in [init_kwargs]. *)
Inductive PyVal : Type :=
| VBool (b : bool)
| VInt (z : Z)
| VFloat (q : Q)
| VNone
| VIntList (l : list Z)
| VModule (m : NNModule)
| VGroup (g : ProcessGroup).

(** A [dict] in insertion order. *)
Definition Kwargs : Type := list (string * PyVal).

(** [d[key] = v] *)
Fixpoint dict_set (d : Kwargs) (key : string) (v : PyVal) : Kwargs :=
  match d with
  | [] => [(key, v)]
  | (k, w) :: d' =>
      if String.eqb k key then (k, v) :: d' else (k, w) :: dict_set d' key v
  end.

Fixpoint dict_get (d : Kwargs) (key : string) : option PyVal :=
  match d with
  | [] => None
  | (k, w) :: d' => if String.eqb k key then Some w else dict_get d' key
  end.

(** Communication hooks of [default_hooks] and [powerSGD_hook]. *)
Inductive Hook : Type :=
| fp16_compress_hook
| powerSGD_hook
| batched_powerSGD_hook
| fp16_compress_wrapper (h : Hook).

Record PowerSGDState : Type := {
  ps_process_group : ProcessGroup;
  matrix_approximation_rank : Z;
  start_powerSGD_iter : Z
}.

(** The wrapper object [ddp_model]: the class it extends and the keyword
    arguments it was constructed with. *)
Record DDPModel : Type := {
  ddp_class : DDPClass;
  init_kwargs : Kwargs
}.

(** What the function does to the outside world, in order.  [Construct]
    stands for the call of [_DistributedFairseqModel] on [init_kwargs]; what
    the external constructors do, or whether they fail, is not looked
    into. *)
Inductive Event : Type :=
| Construct (m : DDPModel)
| Print (line : string)
| NewPowerSGDState (s : PowerSGDState)
| RegisterCommHook (receiver : DDPModel) (state : PowerSGDState) (hook : Hook).

(** What the function reads from its surroundings. *)
Record Env : Type := {
  (** lines 20-24: [True] when [import gossip] failed *)
  _GOSSIP_DISABLED : bool;
  (** [os.getenv("COMM_HOOK_TYPE")] *)
  COMM_HOOK_TYPE : option string;
  (** [inspect.getargspec(nn.parallel.DistributedDataParallel)[0]] *)
  DistributedDataParallel_argspec : list string;
  (** whether [ddp_model.register_comm_hook] resolves on a wrapper that
      extends the given class (three of the classes are external) *)
  has_register_comm_hook : DDPClass -> bool
}.

(** ** The state-and-error monad of [DistributedFairseqModel] *)

Record St : Type := {
  st_args : Args;
  st_trace : list Event
}.

Definition M (A : Type) : Type := St -> (Exn + A) * St.

Definition ret (A : Type) (a : A) : M A := fun s => (inr a, s).

Definition bind (A B : Type) (m : M A) (f : A -> M B) : M B :=
  fun s =>
    match m s with
    | (inl e, s') => (inl e, s')
    | (inr a, s') => f a s'
    end.

Definition raise {A : Type} (e : Exn) : M A := fun s => (inl e, s).

Definition read_args : M Args := fun s => (inr (st_args s), s).

Definition write_slowmo_momentum (v : option Q) : M unit :=
  fun s =>
    (inr tt, {| st_args := assign_slowmo_momentum (st_args s) v;
                st_trace := st_trace s |}).

Definition emit (e : Event) : M unit :=
  fun s => (inr tt, {| st_args := st_args s; st_trace := st_trace s ++ [e] |}).

Declare Scope py_scope.
Delimit Scope py_scope with py.
Notation "x <- m ;; k" := (bind m (fun x => k))
  (at level 61, m at next level, right associativity) : py_scope.
Notation "m ;;; k" := (bind m (fun _ => k))
  (at level 61, right associativity) : py_scope.

(* ------------------------------------------------------------------ *)
(** ** distributed_fairseq_model.py: [DistributedFairseqModel]         *)
(* ------------------------------------------------------------------ *)

Section DistributedFairseqModel.

Variable env : Env.
Variable model : NNModule.
Variable process_group : ProcessGroup.

Local Open Scope py_scope.
Local Open Scope string_scope.

(** [name in inspect.getargspec(ddp_class)[0]], for the dense class. *)
Definition in_argspec (name : string) : bool :=
  existsb (String.eqb name) (DistributedDataParallel_argspec env).

(** Lines 82-90: the default ladder, run when the gossip class has been
    chosen.  It assigns to [args.slowmo_momentum], the caller's namespace. *)
Definition default_slowmo_momentum : M unit :=
  args <- read_args ;;
  match slowmo_momentum args with
  | None =>
      if (distributed_world_size args <=? 16)%Z then
        write_slowmo_momentum (Some 0.0%Q)
      else if (distributed_world_size args <=? 32)%Z then
        write_slowmo_momentum (Some 0.2%Q)
      else if (distributed_world_size args <=? 64)%Z then
        write_slowmo_momentum (Some 0.5%Q)
      else
        write_slowmo_momentum (Some 0.6%Q)
  | Some _ => ret tt
  end.

Definition option_float (v : option Q) : PyVal :=
  match v with
  | Some q => VFloat q
  | None => VNone
  end.

(** Lines 42-103: "determine which DDP class to extend", with the keyword
    arguments of its constructor. *)
Definition select_ddp_class : M (DDPClass * Kwargs) :=
  args <- read_args ;;
  if tpu args then
    ret (TPUDistributedDataParallel,
         [("module", VModule model);
          ("process_group", VGroup process_group)])
  else if (distributed_wrapper args =? "DDP") && (ddp_backend args =? "c10d")
  then
    let init_kwargs :=
      [("module", VModule model);
       ("device_ids", VIntList [device_id args]);
       ("output_device", VInt (device_id args));
       ("broadcast_buffers", VBool (broadcast_buffers args));
       ("bucket_cap_mb", VInt (bucket_cap_mb args));
       ("process_group", VGroup process_group)] in
    let init_kwargs :=
      if in_argspec "check_reduction"
      then dict_set init_kwargs "check_reduction" (VBool true)
      else init_kwargs in
    let init_kwargs :=
      if in_argspec "find_unused_parameters"
      then dict_set init_kwargs "find_unused_parameters"
             (VBool (find_unused_parameters args))
      else init_kwargs in
    ret (nn_parallel_DistributedDataParallel, init_kwargs)
  else if (distributed_wrapper args =? "DDP")
          && (ddp_backend args =? "no_c10d")
  then
    ret (LegacyDistributedDataParallel,
         [("module", VModule model);
          ("buffer_size", VInt (2 ^ 28));
          ("process_group", VGroup process_group)])
  else if distributed_wrapper args =? "SlowMo" then
    if _GOSSIP_DISABLED env then
      raise (ImportError
               ("Cannot find gossip library. Please install from: "
                ++ "github.com/facebookresearch/stochastic_gradient_push"))
    else
      default_slowmo_momentum ;;;
      args <- read_args ;;
      ret (gossip_GossipDataParallel,
           [("module", VModule model);
            ("device_ids", VIntList [device_id args]);
            ("output_device", VInt (device_id args));
            ("broadcast_buffers", VBool (broadcast_buffers args));
            ("nprocs_per_node", VInt (nprocs_per_node args));
            ("slowmo_momentum", option_float (slowmo_momentum args));
            ("localsgd", VBool (slowmo_algorithm args =? "LocalSGD"));
            ("localsgd_frequency", VInt (localsgd_frequency args))])
  else
    raise (ValueError ("Unknown --ddp-backend: " ++ ddp_backend args)).

(** [ddp_model.register_comm_hook(state, hook)]: the attribute is looked up
    on the wrapper first, then the hook is installed on that wrapper. *)
Definition register_comm_hook
    (ddp_model : DDPModel) (state : PowerSGDState) (hook : Hook) : M unit :=
  if has_register_comm_hook env (ddp_class ddp_model) then
    emit (RegisterCommHook ddp_model state hook)
  else
    raise (AttributeError "_DistributedFairseqModel" "register_comm_hook").

(** Lines 122-151: the hook chosen by the environment variable.  In the
    first branch the receiver is the name [ddp], which is bound neither in
    the function nor in the module: evaluating it raises [NameError]. *)
Definition register_hook_from_env (ddp_model : DDPModel) : M unit :=
  let comm_hook_type := COMM_HOOK_TYPE env in
  emit (Print " =================================================== ") ;;;
  match comm_hook_type with
  | Some t => emit (Print ("DDP communication hook " ++ t ++ " is registered"))
  | None => emit (Print "No DDP communication hook is registered.")
  end ;;;
  emit (Print " =================================================== ") ;;;
  let state :=
    {| ps_process_group := process_group;
       matrix_approximation_rank := 1;
       start_powerSGD_iter := 2 |} in
  emit (NewPowerSGDState state) ;;;
  match comm_hook_type with
  | Some t =>
      if t =? "FP16_COMPRESS" then
        raise (NameError "ddp")
      else if t =? "POWER_SGD" then
        register_comm_hook ddp_model state powerSGD_hook
      else if t =? "FP16_POWER_SGD" then
        register_comm_hook ddp_model state
          (fp16_compress_wrapper powerSGD_hook)
      else if t =? "BATCHED_POWER_SGD" then
        register_comm_hook ddp_model state batched_powerSGD_hook
      else if t =? "FP16_BATCHED_POWER_SGD" then
        register_comm_hook ddp_model state
          (fp16_compress_wrapper batched_powerSGD_hook)
      else
        raise (ValueError
                 "Unknown value of the environment variable COMM_HOOK_TYPE.")
  | None => ret tt
  end.

(** Lines 27-153. *)
Definition DistributedFairseqModel : M DDPModel :=
  sel <- select_ddp_class ;;
  let ddp_model := {| ddp_class := fst sel; init_kwargs := snd sel |} in
  emit (Construct ddp_model) ;;;
  register_hook_from_env ddp_model ;;;
  ret ddp_model.

End DistributedFairseqModel.

(** The state when the chain of comparisons starts: three lines printed and
    the PowerSGD state created. *)
Definition hook_prelude (env : Env) (process_group : ProcessGroup) (s : St)
  : St :=
  {| st_args := st_args s;
     st_trace :=
       st_trace s
       ++ [Print " =================================================== ";
           match COMM_HOOK_TYPE env with
           | Some t => Print ("DDP communication hook " ++ t
                              ++ " is registered")%string
           | None => Print "No DDP communication hook is registered."
           end;
           Print " =================================================== ";
           NewPowerSGDState
             {| ps_process_group := process_group;
                matrix_approximation_rank := 1;
                start_powerSGD_iter := 2 |}] |}.

(** The hooks registered in a trace, in order. *)
Definition registered_hooks (trace : list Event) : list (DDPModel * Hook) :=
  flat_map (fun e => match e with
                     | RegisterCommHook r _ h => [(r, h)]
                     | _ => []
                     end) trace.

(** The wrappers constructed in a trace. *)
Definition constructed (trace : list Event) : list DDPModel :=
  flat_map (fun e => match e with
                     | Construct m => [m]
                     | _ => []
                     end) trace.

(* ------------------------------------------------------------------ *)
(** ** distributed_fairseq_model.py: [_DistributedFairseqModel]        *)
(* ------------------------------------------------------------------ *)

Section AttributeForwarding.

(** Python objects, as far as attribute lookup sees them. *)
Variable Value : Type.

(** Ordinary lookup on the wrapper ([object.__getattribute__]): the
    instance dictionary and the classes it inherits from.  Python calls
    [__getattr__] only when this finds nothing. *)
Variable wrapper_namespace : string -> option Value.

(** [super().__getattr__], the [__getattr__] of the extended class applied
    to the wrapper. *)
Variable super_getattr : string -> Exn + Value.

(** The builtin [getattr(obj, name)]. *)
Variable getattr : Value -> string -> Exn + Value.

(** The builtin [hasattr(obj, name)]: [getattr] with [AttributeError]
    turned into [False]; any other exception passes through. *)
Definition hasattr (obj : Value) (name : string) : Exn + bool :=
  match getattr obj name with
  | inr _ => inr true
  | inl (AttributeError _ _) => inr false
  | inl e => inl e
  end.

(** Lines 112-116.  The second component lists the lookups made on other
    objects through the builtins, in order. *)
Definition __getattr__ (name : string)
  : (Exn + Value) * list (Value * string) :=
  match super_getattr "module" with
  | inl e => (inl e, [])
  | inr wrapped_module =>
      match hasattr wrapped_module name with
      | inl e => (inl e, [(wrapped_module, name)])
      | inr true =>
          (getattr wrapped_module name,
           [(wrapped_module, name); (wrapped_module, name)])
      | inr false => (super_getattr name, [(wrapped_module, name)])
      end
  end.

(** [ddp_model.name]: ordinary lookup, then [__getattr__]. *)
Definition wrapper_lookup (name : string)
  : (Exn + Value) * list (Value * string) :=
  match wrapper_namespace name with
  | Some v => (inr v, [])
  | None => __getattr__ name
  end.

End AttributeForwarding.

(** A small universe of objects on which the lookup can be run: integers
    and [nn.Module] instances with a class name, an instance dictionary and
    the registered submodules ([_modules]).  [nn.Module.__getattr__]
    searches the registered entries and otherwise raises [AttributeError]
    naming the class of the object it was called on. *)
Inductive Obj : Type :=
| OInt (z : Z)
| OModule (cls : string) (dict : list (string * Z)) (modules : Modules)
with Modules : Type :=
| MNil
| MCons (name : string) (m : Obj) (rest : Modules).

Definition assoc_int (d : list (string * Z)) (name : string) : option Z :=
  option_map snd (find (fun kv => String.eqb (fst kv) name) d).

Fixpoint find_module (ms : Modules) (name : string) : option Obj :=
  match ms with
  | MNil => None
  | MCons n m rest => if String.eqb n name then Some m else find_module rest name
  end.

Definition nn_Module_getattr (self : Obj) (name : string) : Exn + Obj :=
  match self with
  | OInt _ => inl (AttributeError "int" name)
  | OModule cls _ modules =>
      match find_module modules name with
      | Some m => inr m
      | None => inl (AttributeError cls name)
      end
  end.

Definition obj_namespace (self : Obj) (name : string) : option Obj :=
  match self with
  | OInt _ => None
  | OModule _ dict _ => option_map OInt (assoc_int dict name)
  end.

Definition obj_getattr (self : Obj) (name : string) : Exn + Obj :=
  match obj_namespace self name with
  | Some v => inr v
  | None => nn_Module_getattr self name
  end.

(* ------------------------------------------------------------------ *)
(** ** distributed_fairseq_model.py: [TPUDistributedDataParallel]      *)
(* ------------------------------------------------------------------ *)

Record TPUDistributedDataParallel_obj : Type := {
  self_module : NNModule;
  self_process_group : ProcessGroup;
  self_world_size : Z
}.

(** Lines 158-162. *)
Definition TPUDistributedDataParallel_init
    (module : NNModule) (process_group : ProcessGroup)
  : TPUDistributedDataParallel_obj :=
  {| self_module := module;
     self_process_group := process_group;
     self_world_size := get_world_size process_group |}.

(** [self.parameters()] *)
Definition parameters (self : TPUDistributedDataParallel_obj) : list Param :=
  module_parameters (self_module self).

(** The object after its parameters have been mutated in place. *)
Definition with_parameters
    (self : TPUDistributedDataParallel_obj) (ps : list Param)
  : TPUDistributedDataParallel_obj :=
  {| self_module := {| module_class := module_class (self_module self);
                       module_parameters := ps |};
     self_process_group := self_process_group self;
     self_world_size := self_world_size self |}.

(** [torch.zeros_like(p)]: same shape, all zeros, no autograd flag. *)
Definition zeros_like (p : Param) : Tensor :=
  {| values := repeat 0%R (List.length (data p));
     tensor_requires_grad := false |}.

(** [p.grad = g] *)
Definition assign_grad (p : Param) (g : Tensor) : Param :=
  {| data := data p; requires_grad := requires_grad p; grad := Some g |}.

Definition TPU_error : string :=
  ("TPUDistributedDataParallel only works with gradients that don't "
   ++ "require grad")%string.

(** Lines 168-179: the loop over [self.parameters()], with [gradients] as
    accumulator.  It returns the parameters as the loop leaves them, also
    when it raises.  In the body [g] is [p.grad] as it stands after the
    zero-fill of lines 172-173. *)
Fixpoint collect_gradients (ps : list Param) (gradients : list Tensor)
  : list Param * (Exn + list Tensor) :=
  match ps with
  | [] => ([], inr gradients)
  | p :: rest =>
      if negb (requires_grad p) then
        let (rest', r) := collect_gradients rest gradients in
        (p :: rest', r)
      else
        let (p, g) :=
          match grad p with
          | None => (assign_grad p (zeros_like p), zeros_like p)
          | Some g => (p, g)
          end in
        if tensor_requires_grad g then
          (p :: rest, inl (RuntimeError TPU_error))
        else
          let (rest', r) := collect_gradients rest (gradients ++ [g]) in
          (p :: rest', r)
  end.

(** One call of the accelerator runtime's collective. *)
Record XlaAllReduce : Type := {
  reduce_type : string;
  inputs : list Tensor;
  scale : R;
  groups : list (list Z)
}.

Definition tensor_add (a b : Tensor) : Tensor :=
  {| values := map (fun xy => (fst xy + snd xy)%R)
                   (combine (values a) (values b));
     tensor_requires_grad := tensor_requires_grad a |}.

Definition tensor_scale (c : R) (a : Tensor) : Tensor :=
  {| values := map (Rmult c) (values a);
     tensor_requires_grad := tensor_requires_grad a |}.

(** [xm.all_reduce('sum', inputs, scale=..., groups=...)] of the external
    accelerator runtime, as section 6 describes it: the tensors of the list
    are replaced in place by the scaled sum over the members.  [peers] holds
    the lists contributed by the other members of the group. *)
Definition xm_all_reduce
    (scale : R) (inputs : list Tensor) (peers : list (list Tensor))
  : list Tensor :=
  map (tensor_scale scale)
      (fold_left
         (fun acc contrib =>
            map (fun ab => tensor_add (fst ab) (snd ab)) (combine acc contrib))
         peers inputs).

(** The tensors of [gradients] are the very objects held in the [grad]
    slots of the parameters that require gradients, in the same order: what
    the collective writes into them shows in the parameters. *)
Fixpoint store_gradients (ps : list Param) (reduced : list Tensor)
  : list Param :=
  match ps with
  | [] => []
  | p :: rest =>
      if requires_grad p then
        match reduced with
        | g :: reduced' => assign_grad p g :: store_gradients rest reduced'
        | [] => p :: rest
        end
      else p :: store_gradients rest reduced
  end.

(** Lines 167-187.  The result is the outcome, the object afterwards and the
    collective calls issued. *)
Definition all_reduce_grads
    (self : TPUDistributedDataParallel_obj) (peers : list (list Tensor))
  : (Exn + unit) * TPUDistributedDataParallel_obj * list XlaAllReduce :=
  let (ps, r) := collect_gradients (parameters self) [] in
  match r with
  | inl e => (inl e, with_parameters self ps, [])
  | inr gradients =>
      if (self_world_size self =? 0)%Z then
        (inl ZeroDivisionError, with_parameters self ps, [])
      else
        let scale := (1 / IZR (self_world_size self))%R in
        let call :=
          {| reduce_type := "sum";
             inputs := gradients;
             scale := scale;
             groups := pg_replica_groups (self_process_group self) |} in
        (inr tt,
         with_parameters self
           (store_gradients ps (xm_all_reduce scale gradients peers)),
         [call])
  end.

(** A parameter after the zero-fill step of the loop. *)
Definition zero_fill (p : Param) : Param :=
  if requires_grad p then
    match grad p with
    | None => assign_grad p (zeros_like p)
    | Some _ => p
    end
  else p.

(** The gradient a parameter contributes to the collective, if any. *)
Definition contribution (p : Param) : list Tensor :=
  if requires_grad p then
    match grad p with
    | Some g => [g]
    | None => [zeros_like p]
    end
  else [].

(** A parameter that makes the loop raise. *)
Definition offending (p : Param) : bool :=
  requires_grad p &&
  match grad p with
  | Some g => tensor_requires_grad g
  | None => false
  end.

(** The parameters as the loop leaves them: zero-filled up to the first
    parameter that makes it raise, untouched from there on. *)
Fixpoint fill_until_offending (ps : list Param) : list Param :=
  match ps with
  | [] => []
  | p :: rest =>
      if offending p then p :: rest
      else zero_fill p :: fill_until_offending rest
  end.

(** The gradient tensors held by the parameters that require gradients. *)
Definition held_gradients (ps : list Param) : list Tensor :=
  flat_map (fun p => if requires_grad p
                     then match grad p with
                          | Some g => [g]
                          | None => []
                          end
                     else []) ps.

(* ------------------------------------------------------------------ *)
(** ** Sample inputs                                                   *)
(* ------------------------------------------------------------------ *)

Open Scope string_scope.
Open Scope list_scope.

Definition sample_group : ProcessGroup :=
  {| pg_world_size := 4; pg_replica_groups := [[0; 1; 2; 3]%Z] |}.

Definition sample_model : NNModule :=
  {| module_class := "TransformerModel"; module_parameters := [] |}.

Definition sample_args
    (on_tpu : bool) (wrapper backend : string) (momentum : option Q)
    (world : Z) : Args :=
  {| tpu := on_tpu;
     distributed_wrapper := wrapper;
     ddp_backend := backend;
     device_id := 0;
     broadcast_buffers := false;
     bucket_cap_mb := 25;
     find_unused_parameters := false;
     nprocs_per_node := 8;
     slowmo_momentum := momentum;
     slowmo_algorithm := "LocalSGD";
     localsgd_frequency := 3;
     distributed_world_size := world |}.

Definition sample_env (gossip_disabled : bool) (hook : option string) : Env :=
  {| _GOSSIP_DISABLED := gossip_disabled;
     COMM_HOOK_TYPE := hook;
     DistributedDataParallel_argspec :=
       ["self"; "module"; "device_ids"; "output_device"; "dim";
        "broadcast_buffers"; "process_group"; "bucket_cap_mb";
        "find_unused_parameters"; "check_reduction"]%string;
     has_register_comm_hook :=
       fun c => match c with
                | nn_parallel_DistributedDataParallel => true
                | _ => false
                end |}.

(** A wrapped model with one attribute of its own, and the wrapper around
    it: one attribute in its own namespace, the model registered under
    [module]. *)
Definition sample_wrapped : Obj :=
  OModule "TransformerModel" [("encoder_layers", 6%Z)] MNil.

Definition sample_wrapper : Obj :=
  OModule "_DistributedFairseqModel" [("require_backward_grad_sync", 1%Z)]
          (MCons "module" sample_wrapped MNil).

(** [sample_wrapper.name] *)
Definition sample_lookup (name : string) : (Exn + Obj) * list (Obj * string) :=
  wrapper_lookup (obj_namespace sample_wrapper)
                 (nn_Module_getattr sample_wrapper) obj_getattr name.

(** Three parameters: one frozen, one whose gradient is still absent, one
    with a gradient; and the same with a gradient that itself requires
    differentiation in last place. *)
Definition frozen_param : Param :=
  {| data := [1; 2]%R; requires_grad := false; grad := None |}.

Definition fresh_param : Param :=
  {| data := [3; 4; 5]%R; requires_grad := true; grad := None |}.

Definition trained_param : Param :=
  {| data := [6]%R; requires_grad := true;
     grad := Some {| values := [2]%R; tensor_requires_grad := false |} |}.

Definition second_order_param : Param :=
  {| data := [7]%R; requires_grad := true;
     grad := Some {| values := [1]%R; tensor_requires_grad := true |} |}.

Definition sample_tpu (ps : list Param) : TPUDistributedDataParallel_obj :=
  TPUDistributedDataParallel_init
    {| module_class := "TransformerModel"; module_parameters := ps |}
    sample_group.

(** The state in which a call starts: the caller's [args], nothing done. *)
Definition start (args : Args) : St := {| st_args := args; st_trace := [] |}.

(** A computation that leaves an observation [f] of the state alone. *)
Definition preserves (X A : Type) (f : St -> X) (m : M A) : Prop :=
  forall s, f (snd (m s)) = f s.

(* ------------------------------------------------------------------ *)
(** ** Quantities used to state further properties                     *)
(* ------------------------------------------------------------------ *)

(** Sum of a list of norms. *)
Definition sum_norms (norms : list R) : R := fold_right Rplus 0%R norms.

(** What the members of a model-parallel group contribute to the
    collective of line 34, each running lines 32-33 on its own norm. *)
Definition squares (norms : list R) : list R := map (fun m => (m ^ 2)%R) norms.

(** A gradient tensor that does not itself require differentiation. *)
Definition leaf (g : Tensor) : Prop := tensor_requires_grad g = false.

(** The number of elements of a tensor. *)
Definition shape (g : Tensor) : nat := List.length (values g).

(** A parameter on which the loop of lines 169-179 cannot raise and which,
    if it requires a gradient, holds one. *)
Definition has_leaf_gradient (p : Param) : bool :=
  negb (requires_grad p)
  || match grad p with
     | Some g => negb (tensor_requires_grad g)
     | None => false
     end.

(** [TPUDistributedDataParallel.forward] (lines 164-165): the call is handed
    to the wrapped module, here a function of the module and the inputs. *)
Definition forward (Input Output : Type)
    (call_module : NNModule -> Input -> Output)
    (self : TPUDistributedDataParallel_obj) (inputs : Input) : Output :=
  call_module (self_module self) inputs.

(* ================================================================== *)
(** * Part II.  Properties                                             *)
(* ================================================================== *)

(** ** Gradient-norm aggregation *)

Lemma all_reduce_shift (group : list R) (a b : R) :
  all_reduce (a + b) group = (a + all_reduce b group)%R.
Proof.
  unfold all_reduce. revert b.
  induction group as [|x group IH]; intros b; simpl.
  - reflexivity.
  - rewrite Rplus_assoc. apply IH.
Qed.

Lemma all_reduce_squares (n : R) (peers : list R) :
  all_reduce (n ^ 2) (map (fun m => m ^ 2)%R peers) = sum_sq (n :: peers).
Proof.
  revert n. induction peers as [|p peers IH]; intros n.
  - unfold all_reduce. simpl. lra.
  - change (all_reduce (n ^ 2 + p ^ 2) (map (fun m => m ^ 2)%R peers)
            = (n ^ 2 + sum_sq (p :: peers))%R).
    rewrite all_reduce_shift. now rewrite IH.
Qed.

Lemma sum_sq_repeat (n : R) (k : nat) :
  sum_sq (repeat n k) = (INR k * n ^ 2)%R.
Proof.
  induction k as [|k IH].
  - simpl. lra.
  - rewrite S_INR. change (sum_sq (repeat n (S k)))
      with (n ^ 2 + sum_sq (repeat n k))%R. rewrite IH. lra.
Qed.

(** C1.  Every member of the model-parallel group runs the aggregator on its
    own local norm, so the peers contribute the squares of theirs.  The
    aggregator then returns the square root of the sum of all squares and
    leaves the trainer state (hence every gradient) as it was.  For a norm
    [n >= 0]: a group of size 1 gives [n] back, and a group of [N] members
    (this one and [N - 1] peers) that all hold [n] gives [n * sqrt N]. *)
Theorem aggregate_model_parallel_grad_norm_spec
    (n : R) (peer_norms : list R) (st : TrainerState) (N : nat)
    (Hn : (0 <= n)%R) (HN : (0 < N)%nat) :
  _aggregate_model_parallel_grad_norm
      (map (fun m => m ^ 2)%R peer_norms) n st
    = (sqrt (sum_sq (n :: peer_norms)), st)
  /\ _aggregate_model_parallel_grad_norm [] n st = (n, st)
  /\ _aggregate_model_parallel_grad_norm
       (map (fun m => m ^ 2)%R (repeat n (N - 1))) n st
     = ((n * sqrt (INR N))%R, st).
Proof.
  unfold _aggregate_model_parallel_grad_norm.
  repeat split.
  - now rewrite all_reduce_squares.
  - unfold all_reduce. simpl. f_equal.
    replace (n * (n * 1))%R with (Rsqr n) by (unfold Rsqr; lra).
    now apply sqrt_Rsqr.
  - rewrite all_reduce_squares.
    change (n :: repeat n (N - 1)) with (repeat n (S (N - 1))).
    replace (S (N - 1)) with N by lia.
    rewrite sum_sq_repeat. f_equal.
    rewrite sqrt_mult by (try apply pos_INR; nra).
    replace (n ^ 2)%R with (Rsqr n) by (unfold Rsqr; lra).
    rewrite sqrt_Rsqr by assumption. lra.
Qed.

Lemma aggregate_model_parallel_grad_norm_witness :
  _aggregate_model_parallel_grad_norm
      (map (fun m => m ^ 2)%R [4%R]) 3%R {| shard_grads := [[1%R]] |}
    = (sqrt (sum_sq [3%R; 4%R]), {| shard_grads := [[1%R]] |})
  /\ _aggregate_model_parallel_grad_norm [] 3%R {| shard_grads := [[1%R]] |}
     = (3%R, {| shard_grads := [[1%R]] |})
  /\ _aggregate_model_parallel_grad_norm
       (map (fun m => m ^ 2)%R (repeat 3%R (4 - 1))) 3%R
       {| shard_grads := [[1%R]] |}
     = ((3 * sqrt (INR 4))%R, {| shard_grads := [[1%R]] |}).
Proof.
  apply (@aggregate_model_parallel_grad_norm_spec
           3%R [4%R] {| shard_grads := [[1%R]] |} 4%nat).
  - lra.
  - lia.
Defined.

(** ** The strategy selector *)

(** Case analysis on every test of an [if] chain. *)
Ltac split_hook_branches :=
  repeat match goal with
         | |- context [if ?b then _ else _] => destruct b
         end.

(** Lemmas that a step leaves some observation of the state alone. *)
Create HintDb frame.

Section SelectorFacts.

Variable env : Env.
Variable model : NNModule.
Variable process_group : ProcessGroup.

Local Open Scope string_scope.
Local Open Scope list_scope.

Lemma preserves_bind (X A B : Type) (f : St -> X) (m : M A) (k : A -> M B) :
  preserves f m -> (forall a, preserves f (k a)) -> preserves f (bind m k).
Proof.
  intros Hm Hk s. unfold bind. specialize (Hm s).
  destruct (m s) as [[e|a] s1]; cbn in *; [assumption|].
  now rewrite Hk.
Qed.

Lemma preserves_ret (X A : Type) (f : St -> X) (a : A) : preserves f (ret a).
Proof. intros s. reflexivity. Qed.

Lemma preserves_raise (X A : Type) (f : St -> X) (e : Exn) :
  preserves f (@raise A e).
Proof. intros s. reflexivity. Qed.

Lemma preserves_read (X : Type) (f : St -> X) : preserves f read_args.
Proof. intros s. reflexivity. Qed.

(** Printing, constructing and registering never write to [args]. *)
Lemma emit_args (e : Event) : preserves st_args (emit e).
Proof. intros s. reflexivity. Qed.

#[local] Hint Resolve preserves_ret preserves_raise preserves_read emit_args
  : frame.

(** Only [Construct] adds to the wrappers constructed, only
    [RegisterCommHook] to the hooks registered. *)
Lemma constructed_app (t u : list Event) :
  constructed (t ++ u) = constructed t ++ constructed u.
Proof. apply flat_map_app. Qed.

Lemma registered_hooks_app (t u : list Event) :
  registered_hooks (t ++ u) = registered_hooks t ++ registered_hooks u.
Proof. apply flat_map_app. Qed.

Lemma emit_constructed (e : Event) :
  constructed [e] = [] ->
  preserves (fun s => constructed (st_trace s)) (emit e).
Proof.
  intros He s. cbn. rewrite constructed_app, He. apply app_nil_r.
Qed.

Lemma register_comm_hook_args (m : DDPModel) (ps : PowerSGDState) (h : Hook) :
  preserves st_args (register_comm_hook env m ps h).
Proof.
  unfold register_comm_hook.
  destruct (has_register_comm_hook env (ddp_class m));
    [apply emit_args | apply preserves_raise].
Qed.

Lemma register_comm_hook_constructed
    (m : DDPModel) (ps : PowerSGDState) (h : Hook) :
  preserves (fun s => constructed (st_trace s)) (register_comm_hook env m ps h).
Proof.
  unfold register_comm_hook.
  destruct (has_register_comm_hook env (ddp_class m));
    [now apply emit_constructed | apply preserves_raise].
Qed.

Lemma register_hook_from_env_args (m : DDPModel) :
  preserves st_args (register_hook_from_env env process_group m).
Proof.
  unfold register_hook_from_env.
  repeat (apply preserves_bind; [|intros _]); try apply emit_args.
  - destruct (COMM_HOOK_TYPE env); apply emit_args.
  - destruct (COMM_HOOK_TYPE env) as [t|]; [|apply preserves_ret].
    split_hook_branches;
      first [apply preserves_raise | apply register_comm_hook_args].
Qed.

Lemma register_hook_from_env_constructed (m : DDPModel) :
  preserves (fun s => constructed (st_trace s))
            (register_hook_from_env env process_group m).
Proof.
  unfold register_hook_from_env.
  repeat (apply preserves_bind; [|intros _]);
    try (now apply emit_constructed).
  - destruct (COMM_HOOK_TYPE env); now apply emit_constructed.
  - destruct (COMM_HOOK_TYPE env) as [t|]; [|apply preserves_ret].
    split_hook_branches;
      first [apply preserves_raise | apply register_comm_hook_constructed].
Qed.

(** The selection step performs no effect that the trace records. *)
Lemma default_slowmo_momentum_trace :
  preserves st_trace default_slowmo_momentum.
Proof.
  unfold default_slowmo_momentum.
  apply preserves_bind; [apply preserves_read | intros args].
  destruct (slowmo_momentum args); [apply preserves_ret|].
  split_hook_branches; intros s; reflexivity.
Qed.

Lemma select_ddp_class_trace :
  preserves st_trace (select_ddp_class env model process_group).
Proof.
  unfold select_ddp_class.
  apply preserves_bind; [auto with frame | intros args].
  destruct (tpu args); [auto with frame|].
  destruct (_ && _); [auto with frame|].
  destruct (_ && _); [auto with frame|].
  destruct (_ =? _); [|auto with frame].
  destruct (_GOSSIP_DISABLED env); [auto with frame|].
  apply preserves_bind; [apply default_slowmo_momentum_trace | intros _].
  apply preserves_bind; auto with frame.
Qed.

(** How the whole function continues from the outcome of the selection. *)
Lemma DistributedFairseqModel_raises (s s1 : St) (e : Exn) :
  select_ddp_class env model process_group s = (inl e, s1) ->
  DistributedFairseqModel env model process_group s = (inl e, s1).
Proof.
  intros H. unfold DistributedFairseqModel. unfold bind at 1.
  now rewrite H.
Qed.

Lemma DistributedFairseqModel_constructs
    (s s1 : St) (c : DDPClass) (kw : Kwargs) :
  select_ddp_class env model process_group s = (inr (c, kw), s1) ->
  let s' := snd (DistributedFairseqModel env model process_group s) in
  st_args s' = st_args s1
  /\ constructed (st_trace s')
     = constructed (st_trace s) ++ [{| ddp_class := c; init_kwargs := kw |}].
Proof.
  intros H s'. subst s'.
  replace (DistributedFairseqModel env model process_group s)
    with (bind (register_hook_from_env env process_group
                  {| ddp_class := c; init_kwargs := kw |})
               (fun _ => ret {| ddp_class := c; init_kwargs := kw |})
               {| st_args := st_args s1;
                  st_trace :=
                    st_trace s1
                    ++ [Construct {| ddp_class := c; init_kwargs := kw |}] |})
    by (symmetry; unfold DistributedFairseqModel; unfold bind at 1;
        now rewrite H).
  assert (Ht : st_trace s1 = st_trace s).
  { replace s1 with (snd (select_ddp_class env model process_group s))
      by now rewrite H.
    apply select_ddp_class_trace. }
  match goal with
  | |- context [bind ?m ?k ?s0] =>
      assert (Ha : preserves st_args (bind m k));
      [|assert (Hc : preserves (fun s => constructed (st_trace s)) (bind m k));
        [|split; [rewrite Ha | rewrite Hc]]]
  end.
  - apply preserves_bind;
      [apply register_hook_from_env_args | intros _; apply preserves_ret].
  - apply preserves_bind;
      [apply register_hook_from_env_constructed
      | intros _; apply preserves_ret].
  - reflexivity.
  - cbn [st_trace]. rewrite constructed_app, Ht. reflexivity.
Qed.

(** The whole function leaves [args] as the selection step left it. *)
Lemma DistributedFairseqModel_args (s : St) :
  st_args (snd (DistributedFairseqModel env model process_group s))
  = st_args (snd (select_ddp_class env model process_group s)).
Proof.
  destruct (select_ddp_class env model process_group s)
    as [[e|[c kw]] s1] eqn:H.
  - now rewrite (DistributedFairseqModel_raises _ H).
  - apply (DistributedFairseqModel_constructs _ H).
Qed.

(** *** The branches of the selection, one lemma each *)

Lemma select_tpu (s : St) :
  tpu (st_args s) = true ->
  select_ddp_class env model process_group s
  = (inr (TPUDistributedDataParallel,
          [("module", VModule model);
           ("process_group", VGroup process_group)]), s).
Proof.
  intros H. unfold select_ddp_class, bind, read_args. now rewrite H.
Qed.

Lemma select_dense (s : St) :
  tpu (st_args s) = false ->
  distributed_wrapper (st_args s) = "DDP" ->
  ddp_backend (st_args s) = "c10d" ->
  exists kw,
    select_ddp_class env model process_group s
    = (inr (nn_parallel_DistributedDataParallel, kw), s).
Proof.
  intros Ht Hw Hb. unfold select_ddp_class, bind, read_args.
  rewrite Ht, Hw, Hb. cbn [String.eqb Ascii.eqb Bool.eqb andb].
  eexists. reflexivity.
Qed.

Lemma select_legacy (s : St) :
  tpu (st_args s) = false ->
  distributed_wrapper (st_args s) = "DDP" ->
  ddp_backend (st_args s) = "no_c10d" ->
  select_ddp_class env model process_group s
  = (inr (LegacyDistributedDataParallel,
          [("module", VModule model);
           ("buffer_size", VInt 268435456);
           ("process_group", VGroup process_group)]), s).
Proof.
  intros Ht Hw Hb. unfold select_ddp_class, bind, read_args.
  rewrite Ht, Hw, Hb. reflexivity.
Qed.

Lemma select_gossip_missing (s : St) :
  tpu (st_args s) = false ->
  distributed_wrapper (st_args s) = "SlowMo" ->
  _GOSSIP_DISABLED env = true ->
  select_ddp_class env model process_group s
  = (inl (ImportError
            "Cannot find gossip library. Please install from: github.com/facebookresearch/stochastic_gradient_push"),
     s).
Proof.
  intros Ht Hw Hg. unfold select_ddp_class, bind, read_args.
  rewrite Ht, Hw, Hg. reflexivity.
Qed.

(** The value the ladder of lines 82-90 leaves in [args.slowmo_momentum]. *)
Lemma default_slowmo_momentum_run (s : St) :
  default_slowmo_momentum s
  = (inr tt,
     match slowmo_momentum (st_args s) with
     | Some _ => s
     | None =>
         {| st_args :=
              assign_slowmo_momentum (st_args s)
                (Some (if (distributed_world_size (st_args s) <=? 16)%Z
                       then 0.0%Q
                       else if (distributed_world_size (st_args s) <=? 32)%Z
                       then 0.2%Q
                       else if (distributed_world_size (st_args s) <=? 64)%Z
                       then 0.5%Q
                       else 0.6%Q));
            st_trace := st_trace s |}
     end).
Proof.
  unfold default_slowmo_momentum, bind, read_args.
  destruct (slowmo_momentum (st_args s)); [reflexivity|].
  split_hook_branches; reflexivity.
Qed.

Lemma select_gossip (s : St) :
  tpu (st_args s) = false ->
  distributed_wrapper (st_args s) = "SlowMo" ->
  _GOSSIP_DISABLED env = false ->
  exists kw s1,
    select_ddp_class env model process_group s
    = (inr (gossip_GossipDataParallel, kw), s1)
    /\ s1 = snd (default_slowmo_momentum s)
    /\ dict_get kw "slowmo_momentum"
       = Some (option_float (slowmo_momentum (st_args s1))).
Proof.
  intros Ht Hw Hg. unfold select_ddp_class. unfold bind at 1.
  unfold read_args at 1. rewrite Ht, Hw, Hg.
  cbn [String.eqb Ascii.eqb Bool.eqb andb].
  unfold bind. rewrite default_slowmo_momentum_run.
  unfold read_args, ret. cbn [snd].
  do 2 eexists. split; [reflexivity|]. split; reflexivity.
Qed.

Lemma select_unknown (s : St) :
  tpu (st_args s) = false ->
  ~ (distributed_wrapper (st_args s) = "DDP"
     /\ ddp_backend (st_args s) = "c10d") ->
  ~ (distributed_wrapper (st_args s) = "DDP"
     /\ ddp_backend (st_args s) = "no_c10d") ->
  distributed_wrapper (st_args s) <> "SlowMo" ->
  select_ddp_class env model process_group s
  = (inl (ValueError
            ("Unknown --ddp-backend: " ++ ddp_backend (st_args s))%string),
     s).
Proof.
  intros Ht H1 H2 H3. unfold select_ddp_class, bind, read_args.
  rewrite Ht.
  destruct ((distributed_wrapper (st_args s) =? "DDP")
            && (ddp_backend (st_args s) =? "c10d")) eqn:E1.
  { exfalso. apply H1. apply andb_true_iff in E1.
    destruct E1 as [Ew Eb]. split; now apply String.eqb_eq. }
  destruct ((distributed_wrapper (st_args s) =? "DDP")
            && (ddp_backend (st_args s) =? "no_c10d")) eqn:E2.
  { exfalso. apply H2. apply andb_true_iff in E2.
    destruct E2 as [Ew Eb]. split; now apply String.eqb_eq. }
  destruct (distributed_wrapper (st_args s) =? "SlowMo") eqn:E3.
  { exfalso. apply H3. now apply String.eqb_eq. }
  reflexivity.
Qed.

End SelectorFacts.

Local Open Scope string_scope.
Local Open Scope list_scope.

(** C2.  When the gossip class is selected (no accelerator flag, wrapper
    [SlowMo], gossip library present) and [args.slowmo_momentum] is unset,
    the call leaves in it a step function of the world size: at most 16
    gives 0.0, 17 to 32 gives 0.2, 33 to 64 gives 0.5, more gives 0.6; the
    same value is passed to the constructor as [slowmo_momentum]. *)
Theorem slowmo_momentum_default_ladder
    (env : Env) (model : NNModule) (process_group : ProcessGroup) (s : St)
    (Htpu : tpu (st_args s) = false)
    (Hwrapper : distributed_wrapper (st_args s) = "SlowMo")
    (Hgossip : _GOSSIP_DISABLED env = false)
    (Hunset : slowmo_momentum (st_args s) = None) :
  let world_size := distributed_world_size (st_args s) in
  let args' :=
    st_args (snd (DistributedFairseqModel env model process_group s)) in
  ((world_size <= 16)%Z -> slowmo_momentum args' = Some 0.0%Q)
  /\ ((16 < world_size <= 32)%Z -> slowmo_momentum args' = Some 0.2%Q)
  /\ ((32 < world_size <= 64)%Z -> slowmo_momentum args' = Some 0.5%Q)
  /\ ((64 < world_size)%Z -> slowmo_momentum args' = Some 0.6%Q)
  /\ exists kw,
       fst (select_ddp_class env model process_group s)
       = inr (gossip_GossipDataParallel, kw)
       /\ dict_get kw "slowmo_momentum"
          = Some (option_float (slowmo_momentum args')).
Proof.
  intros world_size args'.
  destruct (select_gossip env model process_group s Htpu Hwrapper Hgossip)
    as (kw & s1 & Hsel & Hs1 & Hkw).
  assert (Hargs : args' = st_args s1).
  { unfold args'. rewrite DistributedFairseqModel_args. now rewrite Hsel. }
  rewrite default_slowmo_momentum_run, Hunset in Hs1. cbn [snd] in Hs1.
  assert (Hm : slowmo_momentum args'
               = Some (if (world_size <=? 16)%Z then 0.0%Q
                       else if (world_size <=? 32)%Z then 0.2%Q
                       else if (world_size <=? 64)%Z then 0.5%Q
                       else 0.6%Q)).
  { rewrite Hargs, Hs1. reflexivity. }
  repeat split.
  - intros H. rewrite Hm.
    destruct (Z.leb_spec world_size 16); [reflexivity | lia].
  - intros H. rewrite Hm.
    destruct (Z.leb_spec world_size 16); [lia|].
    destruct (Z.leb_spec world_size 32); [reflexivity | lia].
  - intros H. rewrite Hm.
    destruct (Z.leb_spec world_size 16); [lia|].
    destruct (Z.leb_spec world_size 32); [lia|].
    destruct (Z.leb_spec world_size 64); [reflexivity | lia].
  - intros H. rewrite Hm.
    destruct (Z.leb_spec world_size 16); [lia|].
    destruct (Z.leb_spec world_size 32); [lia|].
    destruct (Z.leb_spec world_size 64); [lia | reflexivity].
  - exists kw. rewrite Hsel. split; [reflexivity|]. now rewrite Hargs.
Qed.

Lemma slowmo_momentum_default_ladder_witness :
  slowmo_momentum
    (st_args
       (snd (DistributedFairseqModel (sample_env false None) sample_model
               sample_group
               (start (sample_args false "SlowMo" "c10d" None 24)))))
  = Some 0.2%Q.
Proof.
  apply (@slowmo_momentum_default_ladder
           (sample_env false None) sample_model sample_group
           (start (sample_args false "SlowMo" "c10d" None 24))
           eq_refl eq_refl eq_refl eq_refl).
  cbn. lia.
Defined.

(** The values of the ladder at the points section 8 of the specification
    lists, boundaries included. *)
Example slowmo_momentum_samples :
  map (fun world =>
         slowmo_momentum
           (st_args
              (snd (DistributedFairseqModel (sample_env false None)
                      sample_model sample_group
                      (start (sample_args false "SlowMo" "c10d" None
                                world))))))
      [8; 16; 17; 24; 32; 33; 50; 64; 65; 100]%Z
  = [Some 0.0; Some 0.0; Some 0.2; Some 0.2; Some 0.2;
     Some 0.5; Some 0.5; Some 0.5; Some 0.6; Some 0.6]%Q.
Proof. reflexivity. Qed.

(** C5, as stated, fails: selecting the gossip class with the momentum unset
    writes the default into [args.slowmo_momentum]. *)
Lemma selector_mutates_momentum :
  ~ (forall (env : Env) (model : NNModule) (process_group : ProcessGroup)
            (s : St),
        st_args (snd (select_ddp_class env model process_group s))
        = st_args s).
Proof.
  intros H.
  specialize (H (sample_env false None) sample_model sample_group
                (start (sample_args false "SlowMo" "c10d" None 8))).
  apply (f_equal slowmo_momentum) in H. cbn in H. discriminate H.
Qed.

(** C5, amended.  The selection step records no effect in the trace and
    leaves every field of [args] other than [slowmo_momentum] as it found
    it.  [slowmo_momentum] itself is kept when it was set, and whenever the
    gossip branch is not taken or the gossip library is missing; on the
    gossip branch with the momentum unset it is overwritten with the default
    for the world size.  The rest of [DistributedFairseqModel] does not write
    to [args] at all. *)
Theorem selector_frame
    (env : Env) (model : NNModule) (process_group : ProcessGroup) (s : St) :
  let args := st_args s in
  let s' := snd (select_ddp_class env model process_group s) in
  let args' := st_args s' in
  st_trace s' = st_trace s
  /\ tpu args' = tpu args
  /\ distributed_wrapper args' = distributed_wrapper args
  /\ ddp_backend args' = ddp_backend args
  /\ device_id args' = device_id args
  /\ broadcast_buffers args' = broadcast_buffers args
  /\ bucket_cap_mb args' = bucket_cap_mb args
  /\ find_unused_parameters args' = find_unused_parameters args
  /\ nprocs_per_node args' = nprocs_per_node args
  /\ slowmo_algorithm args' = slowmo_algorithm args
  /\ localsgd_frequency args' = localsgd_frequency args
  /\ distributed_world_size args' = distributed_world_size args
  /\ slowmo_momentum args'
     = (if negb (tpu args) && (distributed_wrapper args =? "SlowMo")
           && negb (_GOSSIP_DISABLED env)
        then match slowmo_momentum args with
             | Some m => Some m
             | None =>
                 Some (if (distributed_world_size args <=? 16)%Z then 0.0%Q
                       else if (distributed_world_size args <=? 32)%Z
                       then 0.2%Q
                       else if (distributed_world_size args <=? 64)%Z
                       then 0.5%Q
                       else 0.6%Q)
             end
        else slowmo_momentum args)
  /\ st_args (snd (DistributedFairseqModel env model process_group s))
     = args'.
Proof.
  intros args s' args'.
  split; [apply select_ddp_class_trace|].
  assert (Hcases :
            (args' = args
             /\ (negb (tpu args) && (distributed_wrapper args =? "SlowMo")
                 && negb (_GOSSIP_DISABLED env) = false))
            \/ (args' = st_args (snd (default_slowmo_momentum s))
                /\ negb (tpu args) && (distributed_wrapper args =? "SlowMo")
                   && negb (_GOSSIP_DISABLED env) = true)).
  { unfold args', s', args.
    destruct (tpu (st_args s)) eqn:Ht.
    { left. now rewrite select_tpu. }
    destruct (distributed_wrapper (st_args s) =? "SlowMo") eqn:Hw.
    - apply String.eqb_eq in Hw.
      destruct (_GOSSIP_DISABLED env) eqn:Hg.
      + left. now rewrite select_gossip_missing.
      + right.
        destruct (select_gossip env model process_group s Ht Hw Hg)
          as (kw & s1 & Hsel & Hs1 & _).
        rewrite Hsel. cbn [snd]. now rewrite Hs1.
    - left. split; [|reflexivity].
      unfold select_ddp_class, bind, read_args. rewrite Ht, Hw.
      repeat match goal with
             | |- context [if ?b then _ else _] => destruct b
             end; reflexivity. }
  assert (Hdfm : st_args (snd (DistributedFairseqModel env model
                                  process_group s)) = args')
    by apply DistributedFairseqModel_args.
  clearbody args'. clear s'.
  destruct Hcases as [[Heq Hc]|[Heq Hc]]; rewrite Hc.
  - subst args'. repeat split; assumption.
  - rewrite default_slowmo_momentum_run in Heq. cbn [snd] in Heq.
    fold args in Heq.
    destruct (slowmo_momentum args) as [m|] eqn:Hm.
    + subst args'. repeat split; assumption.
    + subst args'. cbn. repeat split; assumption.
Qed.

(** C7.  Each of the four supported requests constructs a wrapper on the
    class that was asked for: the accelerator class under the [tpu] flag,
    and without it the dense class for [DDP] with [c10d], the legacy class
    for [DDP] with [no_c10d], and the gossip class for [SlowMo] (its library
    being present).  Every other request raises [ValueError] and constructs
    nothing. *)
Theorem selector_matches_request
    (env : Env) (model : NNModule) (process_group : ProcessGroup) (s : St) :
  let args := st_args s in
  let run := DistributedFairseqModel env model process_group s in
  let builds c :=
    exists kw,
      fst (select_ddp_class env model process_group s) = inr (c, kw)
      /\ constructed (st_trace (snd run))
         = constructed (st_trace s)
           ++ [{| ddp_class := c; init_kwargs := kw |}] in
  (tpu args = true -> builds TPUDistributedDataParallel)
  /\ (tpu args = false -> distributed_wrapper args = "DDP" ->
      ddp_backend args = "c10d" ->
      builds nn_parallel_DistributedDataParallel)
  /\ (tpu args = false -> distributed_wrapper args = "DDP" ->
      ddp_backend args = "no_c10d" ->
      builds LegacyDistributedDataParallel)
  /\ (tpu args = false -> distributed_wrapper args = "SlowMo" ->
      _GOSSIP_DISABLED env = false ->
      builds gossip_GossipDataParallel)
  /\ (tpu args = false ->
      ~ (distributed_wrapper args = "DDP" /\ ddp_backend args = "c10d") ->
      ~ (distributed_wrapper args = "DDP" /\ ddp_backend args = "no_c10d") ->
      distributed_wrapper args <> "SlowMo" ->
      run = (inl (ValueError
                    ("Unknown --ddp-backend: " ++ ddp_backend args)%string),
             s)).
Proof.
  intros args run builds.
  assert (Hbuild : forall c kw s1,
             select_ddp_class env model process_group s = (inr (c, kw), s1) ->
             builds c).
  { intros c kw s1 H. exists kw. split; [now rewrite H|].
    apply (@DistributedFairseqModel_constructs
             env model process_group s s1 c kw H). }
  repeat split.
  - intros Ht. eapply Hbuild. now apply select_tpu.
  - intros Ht Hw Hb.
    destruct (select_dense env model process_group s Ht Hw Hb) as [kw H].
    eapply Hbuild. exact H.
  - intros Ht Hw Hb. eapply Hbuild. now apply select_legacy.
  - intros Ht Hw Hg.
    destruct (select_gossip env model process_group s Ht Hw Hg)
      as (kw & s1 & H & _).
    eapply Hbuild. exact H.
  - intros Ht H1 H2 H3. apply DistributedFairseqModel_raises.
    now apply select_unknown.
Qed.

Lemma selector_matches_request_witness :
  (exists kw,
      fst (select_ddp_class (sample_env true None) sample_model sample_group
             (start (sample_args false "DDP" "c10d" None 8)))
      = inr (nn_parallel_DistributedDataParallel, kw)
      /\ constructed
           (st_trace
              (snd (DistributedFairseqModel (sample_env true None)
                      sample_model sample_group
                      (start (sample_args false "DDP" "c10d" None 8)))))
         = constructed (st_trace (start (sample_args false "DDP" "c10d" None 8)))
           ++ [{| ddp_class := nn_parallel_DistributedDataParallel;
                  init_kwargs := kw |}])
  /\ DistributedFairseqModel (sample_env true None) sample_model sample_group
       (start (sample_args false "DDP" "gloo" None 8))
     = (inl (ValueError "Unknown --ddp-backend: gloo"),
        start (sample_args false "DDP" "gloo" None 8)).
Proof.
  split.
  - apply (selector_matches_request (sample_env true None) sample_model
             sample_group (start (sample_args false "DDP" "c10d" None 8)));
      reflexivity.
  - apply (selector_matches_request (sample_env true None) sample_model
             sample_group (start (sample_args false "DDP" "gloo" None 8))).
    + reflexivity.
    + intros [_ H]. discriminate H.
    + intros [_ H]. discriminate H.
    + intros H. discriminate H.
Defined.

(** C8.  Asking for the gossip class when [import gossip] has failed raises
    [ImportError] with a message that names the library and where to
    install it from.  The state comes back as it was: nothing has been
    constructed or registered and [args] is untouched. *)
Theorem gossip_missing_dependency
    (env : Env) (model : NNModule) (process_group : ProcessGroup) (s : St)
    (Htpu : tpu (st_args s) = false)
    (Hwrapper : distributed_wrapper (st_args s) = "SlowMo")
    (Hgossip : _GOSSIP_DISABLED env = true) :
  DistributedFairseqModel env model process_group s
  = (inl (ImportError
            "Cannot find gossip library. Please install from: github.com/facebookresearch/stochastic_gradient_push"),
     s)
  /\ select_ddp_class env model process_group s
     = (inl (ImportError
               "Cannot find gossip library. Please install from: github.com/facebookresearch/stochastic_gradient_push"),
        s).
Proof.
  split.
  - apply DistributedFairseqModel_raises. now apply select_gossip_missing.
  - now apply select_gossip_missing.
Qed.

Lemma gossip_missing_dependency_witness :
  DistributedFairseqModel (sample_env true None) sample_model sample_group
    (start (sample_args false "SlowMo" "c10d" None 8))
  = (inl (ImportError
            "Cannot find gossip library. Please install from: github.com/facebookresearch/stochastic_gradient_push"),
     start (sample_args false "SlowMo" "c10d" None 8)).
Proof.
  apply (@gossip_missing_dependency (sample_env true None) sample_model
           sample_group (start (sample_args false "SlowMo" "c10d" None 8))
           eq_refl eq_refl eq_refl).
Defined.

(** ** Registration of the communication hook *)

Section HookFacts.

Variable env : Env.
Variable process_group : ProcessGroup.
Variable ddp_model : DDPModel.

Lemma hook_prelude_registered (s : St) :
  registered_hooks (st_trace (hook_prelude env process_group s)) = registered_hooks (st_trace s).
Proof.
  unfold hook_prelude. cbn [st_trace]. rewrite registered_hooks_app.
  destruct (COMM_HOOK_TYPE env); cbn; apply app_nil_r.
Qed.

Lemma register_hook_from_env_run (s : St) :
  register_hook_from_env env process_group ddp_model s
  = match COMM_HOOK_TYPE env with
    | Some t =>
        let state := {| ps_process_group := process_group;
                        matrix_approximation_rank := 1;
                        start_powerSGD_iter := 2 |} in
        if t =? "FP16_COMPRESS" then
          (inl (NameError "ddp"), hook_prelude env process_group s)
        else if t =? "POWER_SGD" then
          register_comm_hook env ddp_model state powerSGD_hook
            (hook_prelude env process_group s)
        else if t =? "FP16_POWER_SGD" then
          register_comm_hook env ddp_model state
            (fp16_compress_wrapper powerSGD_hook) (hook_prelude env process_group s)
        else if t =? "BATCHED_POWER_SGD" then
          register_comm_hook env ddp_model state batched_powerSGD_hook
            (hook_prelude env process_group s)
        else if t =? "FP16_BATCHED_POWER_SGD" then
          register_comm_hook env ddp_model state
            (fp16_compress_wrapper batched_powerSGD_hook) (hook_prelude env process_group s)
        else
          (inl (ValueError
                  "Unknown value of the environment variable COMM_HOOK_TYPE."),
           hook_prelude env process_group s)
    | None => (inr tt, hook_prelude env process_group s)
    end.
Proof.
  unfold register_hook_from_env, hook_prelude, bind, emit, raise, ret.
  destruct (COMM_HOOK_TYPE env) as [t|]; cbn [st_args st_trace];
    rewrite <- !app_assoc; cbn [app]; [|reflexivity].
  repeat match goal with
         | |- context [if ?b then _ else _] => destruct b
         end; reflexivity.
Qed.

(** The four branches that name the wrapper register one hook on it. *)
Lemma hook_registered_on_wrapper (s : St) (t : string) (h : Hook) :
  COMM_HOOK_TYPE env = Some t ->
  has_register_comm_hook env (ddp_class ddp_model) = true ->
  In (t, h) [("POWER_SGD", powerSGD_hook);
             ("FP16_POWER_SGD", fp16_compress_wrapper powerSGD_hook);
             ("BATCHED_POWER_SGD", batched_powerSGD_hook);
             ("FP16_BATCHED_POWER_SGD",
              fp16_compress_wrapper batched_powerSGD_hook)] ->
  let run := register_hook_from_env env process_group ddp_model s in
  fst run = inr tt
  /\ registered_hooks (st_trace (snd run))
     = registered_hooks (st_trace s) ++ [(ddp_model, h)].
Proof.
  intros Ht Hreg Hin run. unfold run.
  rewrite register_hook_from_env_run, Ht.
  unfold register_comm_hook. rewrite Hreg.
  cbn in Hin.
  destruct Hin as [E|[E|[E|[E|[]]]]]; inversion E; subst;
    cbn [String.eqb Ascii.eqb Bool.eqb]; unfold emit; cbn [fst snd st_trace];
    (split; [reflexivity|]);
    rewrite registered_hooks_app, hook_prelude_registered; reflexivity.
Qed.

(** A value outside the five raises [ValueError]; nothing is registered. *)
Lemma hook_unrecognized (s : St) (t : string) :
  COMM_HOOK_TYPE env = Some t ->
  ~ In t ["FP16_COMPRESS"; "POWER_SGD"; "FP16_POWER_SGD";
          "BATCHED_POWER_SGD"; "FP16_BATCHED_POWER_SGD"] ->
  let run := register_hook_from_env env process_group ddp_model s in
  fst run
  = inl (ValueError
           "Unknown value of the environment variable COMM_HOOK_TYPE.")
  /\ registered_hooks (st_trace (snd run)) = registered_hooks (st_trace s).
Proof.
  intros Ht Hnot run. unfold run.
  rewrite register_hook_from_env_run, Ht. cbn zeta.
  repeat match goal with
         | |- context [if String.eqb t ?c then _ else _] =>
             destruct (String.eqb_spec t c) as [E|_];
             [exfalso; apply Hnot; rewrite E; cbn; tauto|]
         end.
  split; [reflexivity | apply hook_prelude_registered].
Qed.

(** With the variable absent nothing is registered and nothing raised. *)
Lemma hook_absent (s : St) :
  COMM_HOOK_TYPE env = None ->
  let run := register_hook_from_env env process_group ddp_model s in
  fst run = inr tt
  /\ registered_hooks (st_trace (snd run)) = registered_hooks (st_trace s).
Proof.
  intros Ht run. unfold run. rewrite register_hook_from_env_run, Ht.
  split; [reflexivity | apply hook_prelude_registered].
Qed.

(** The first branch evaluates the unbound name [ddp]. *)
Lemma hook_fp16_compress (s : St) :
  COMM_HOOK_TYPE env = Some "FP16_COMPRESS" ->
  let run := register_hook_from_env env process_group ddp_model s in
  fst run = inl (NameError "ddp")
  /\ registered_hooks (st_trace (snd run)) = registered_hooks (st_trace s).
Proof.
  intros Ht run. unfold run. rewrite register_hook_from_env_run, Ht.
  split; [reflexivity | apply hook_prelude_registered].
Qed.

End HookFacts.

(** C3, at the value [FP16_COMPRESS].  On a dense wrapper, which does offer
    [register_comm_hook], the call ends in [NameError] for the name [ddp]
    and the trace holds no registration, whereas the four sibling values
    register their hook on [ddp_model] ([hook_registered_on_wrapper]). *)
Theorem fp16_compress_hook_not_registered :
  let run :=
    DistributedFairseqModel (sample_env false (Some "FP16_COMPRESS"))
      sample_model sample_group
      (start (sample_args false "DDP" "c10d" None 8)) in
  fst run = inl (NameError "ddp")
  /\ registered_hooks (st_trace (snd run)) = []
  /\ exists m, constructed (st_trace (snd run)) = [m]
               /\ ddp_class m = nn_parallel_DistributedDataParallel
               /\ has_register_comm_hook
                    (sample_env false (Some "FP16_COMPRESS")) (ddp_class m)
                  = true.
Proof.
  cbv zeta. split; [reflexivity|]. split; [reflexivity|].
  eexists. split; [reflexivity|]. split; reflexivity.
Qed.

(** ** Attribute forwarding *)

(** C4, as stated, fails in its last part: for a name that neither the
    wrapper nor the model defines, the model's failure names the model's
    class, while the lookup on the wrapper fails in the extended class and
    names the wrapper's class. *)
Lemma lookup_failure_not_the_models :
  obj_namespace sample_wrapper "decoder" = None
  /\ obj_getattr sample_wrapped "decoder"
     = inl (AttributeError "TransformerModel" "decoder")
  /\ fst (sample_lookup "decoder")
     = inl (AttributeError "_DistributedFairseqModel" "decoder")
  /\ fst (sample_lookup "decoder") <> obj_getattr sample_wrapped "decoder".
Proof.
  repeat split. intros H. discriminate H.
Qed.

(** The wrapped model itself is an entry the extended class holds for the
    wrapper, not something ordinary lookup finds: asking the wrapper for
    [module] already consults the model. *)
Lemma registered_entry_reaches_model :
  obj_namespace sample_wrapper "module" = None
  /\ sample_lookup "module"
     = (inr sample_wrapped, [(sample_wrapped, "module")]).
Proof. split; reflexivity. Qed.

(** C4, amended.  A name found by ordinary lookup on the wrapper resolves
    there without any lookup on the model.  A name not found there, which
    the wrapped model has, yields the model's value.  A name not found there,
    for which the model raises [AttributeError], yields whatever the
    [__getattr__] of the extended class yields for it on the wrapper (its own
    lookup failure when it has no such entry), after one lookup on the
    model. *)
Theorem wrapper_lookup_chain
    (Value : Type) (wrapper_namespace : string -> option Value)
    (super_getattr : string -> Exn + Value)
    (getattr : Value -> string -> Exn + Value) (name : string) :
  let lookup := wrapper_lookup wrapper_namespace super_getattr getattr in
  (forall v, wrapper_namespace name = Some v -> lookup name = (inr v, []))
  /\ (forall wrapped v,
         wrapper_namespace name = None ->
         super_getattr "module" = inr wrapped ->
         getattr wrapped name = inr v ->
         fst (lookup name) = inr v)
  /\ (forall wrapped cls n,
         wrapper_namespace name = None ->
         super_getattr "module" = inr wrapped ->
         getattr wrapped name = inl (AttributeError cls n) ->
         lookup name = (super_getattr name, [(wrapped, name)])).
Proof.
  intros lookup. unfold lookup, wrapper_lookup, __getattr__, hasattr.
  repeat split.
  - intros v H. now rewrite H.
  - intros wrapped v Hns Hmod Hget. now rewrite Hns, Hmod, Hget.
  - intros wrapped cls n Hns Hmod Hget. now rewrite Hns, Hmod, Hget.
Qed.

Lemma wrapper_lookup_chain_witness :
  sample_lookup "require_backward_grad_sync" = (inr (OInt 1), [])
  /\ fst (sample_lookup "encoder_layers") = inr (OInt 6)
  /\ sample_lookup "decoder"
     = (nn_Module_getattr sample_wrapper "decoder",
        [(sample_wrapped, "decoder")]).
Proof.
  split; [|split].
  - apply (wrapper_lookup_chain (obj_namespace sample_wrapper)
             (nn_Module_getattr sample_wrapper) obj_getattr
             "require_backward_grad_sync").
    reflexivity.
  - apply (wrapper_lookup_chain (obj_namespace sample_wrapper)
             (nn_Module_getattr sample_wrapper) obj_getattr
             "encoder_layers") with (wrapped := sample_wrapped);
      reflexivity.
  - apply (wrapper_lookup_chain (obj_namespace sample_wrapper)
             (nn_Module_getattr sample_wrapper) obj_getattr
             "decoder")
      with (wrapped := sample_wrapped) (cls := "TransformerModel")
           (n := "decoder");
      reflexivity.
Defined.

(** ** The accelerator-native reduction *)

Lemma assign_grad_same (p : Param) (g : Tensor) :
  grad p = Some g -> assign_grad p g = p.
Proof. destruct p; cbn; intros H; now rewrite H. Qed.

(** The loop in closed form. *)
Lemma collect_gradients_run (ps : list Param) (acc : list Tensor) :
  collect_gradients ps acc
  = (fill_until_offending ps,
     if existsb offending ps
     then inl (RuntimeError TPU_error)
     else inr (acc ++ flat_map contribution ps)).
Proof.
  revert acc. induction ps as [|p rest IH]; intros acc.
  - cbn. now rewrite app_nil_r.
  - cbn [collect_gradients fill_until_offending existsb flat_map].
    unfold offending at 1 2, zero_fill, contribution.
    destruct (requires_grad p) eqn:Hr; cbn [negb andb orb].
    + destruct (grad p) as [g|] eqn:Hg.
      * destruct (tensor_requires_grad g) eqn:Hgr.
        -- reflexivity.
        -- rewrite IH. cbn [orb]. rewrite <- app_assoc. reflexivity.
      * cbn [zeros_like tensor_requires_grad].
        rewrite IH. cbn [orb]. rewrite <- app_assoc. reflexivity.
    + rewrite IH. reflexivity.
Qed.

Lemma fill_all (ps : list Param) :
  existsb offending ps = false -> fill_until_offending ps = map zero_fill ps.
Proof.
  induction ps as [|p rest IH]; [reflexivity|].
  cbn. intros H. apply orb_false_iff in H. destruct H as [Hp Hrest].
  rewrite Hp. now rewrite IH.
Qed.

Lemma fill_split (ps : list Param) :
  existsb offending ps = true ->
  exists pre p post,
    ps = pre ++ p :: post
    /\ existsb offending pre = false
    /\ offending p = true
    /\ fill_until_offending ps = map zero_fill pre ++ p :: post.
Proof.
  induction ps as [|q rest IH]; [discriminate|].
  cbn. destruct (offending q) eqn:Hq.
  - intros _. exists [], q, rest. repeat split; assumption.
  - cbn. intros H. destruct (IH H) as (pre & p & post & E & Hpre & Hp & Hf).
    exists (q :: pre), p, post. cbn. rewrite Hq, Hpre, Hf, E.
    repeat split; assumption.
Qed.

(** What the collective is given is what the zero-filled parameters hold. *)
Lemma contribution_held (ps : list Param) :
  flat_map contribution ps = held_gradients (map zero_fill ps).
Proof.
  unfold held_gradients.
  induction ps as [|p rest IH]; [reflexivity|].
  cbn [flat_map map]. rewrite IH. f_equal.
  unfold contribution, zero_fill.
  destruct (requires_grad p) eqn:Hr; [|now rewrite Hr].
  destruct (grad p) eqn:Hg; cbn [requires_grad grad assign_grad];
    rewrite Hr; [now rewrite Hg | reflexivity].
Qed.

Lemma zero_fill_requires_grad (p : Param) :
  requires_grad (zero_fill p) = requires_grad p.
Proof.
  unfold zero_fill. destruct (requires_grad p) eqn:Hr; [|assumption].
  destruct (grad p); [assumption | exact Hr].
Qed.

Lemma contribution_requiring (p : Param) :
  requires_grad p = true ->
  exists g, contribution p = [g] /\ grad (zero_fill p) = Some g.
Proof.
  intros Hr. unfold contribution, zero_fill. rewrite Hr.
  destruct (grad p) as [g|] eqn:Hg.
  - exists g. now split.
  - exists (zeros_like p). now split.
Qed.

Lemma contribution_frozen (p : Param) :
  requires_grad p = false -> contribution p = [] /\ zero_fill p = p.
Proof.
  intros Hr. unfold contribution, zero_fill. now rewrite Hr.
Qed.

(** Writing back the tensors the parameters already hold changes nothing. *)
Lemma store_held (ps : list Param) :
  store_gradients (map zero_fill ps) (flat_map contribution ps)
  = map zero_fill ps.
Proof.
  induction ps as [|p rest IH]; [reflexivity|].
  cbn [map flat_map store_gradients]. rewrite zero_fill_requires_grad.
  destruct (requires_grad p) eqn:Hr.
  - destruct (contribution_requiring p Hr) as (g & Hc & Hg).
    rewrite Hc. cbn [app]. rewrite IH. now rewrite (assign_grad_same _ Hg).
  - destruct (contribution_frozen p Hr) as [Hc _].
    rewrite Hc. cbn [app]. now rewrite IH.
Qed.

(** *** The collective among members that contribute the same tensors *)

Lemma tensor_add_scaled (c : R) (g : Tensor) :
  tensor_add (tensor_scale c g) g = tensor_scale (c + 1) g.
Proof.
  unfold tensor_add, tensor_scale. cbn [values tensor_requires_grad].
  f_equal. induction (values g) as [|x v IH]; [reflexivity|].
  cbn. rewrite IH. f_equal. lra.
Qed.

Lemma zip_add_scaled (c : R) (gs : list Tensor) :
  map (fun ab => tensor_add (fst ab) (snd ab))
      (combine (map (tensor_scale c) gs) gs)
  = map (tensor_scale (c + 1)) gs.
Proof.
  induction gs as [|g gs IH]; [reflexivity|].
  cbn. now rewrite IH, tensor_add_scaled.
Qed.

Lemma sum_of_copies (k : nat) (c : R) (gs : list Tensor) :
  fold_left
    (fun acc contrib =>
       map (fun ab => tensor_add (fst ab) (snd ab)) (combine acc contrib))
    (repeat gs k) (map (tensor_scale c) gs)
  = map (tensor_scale (c + INR k)) gs.
Proof.
  revert c. induction k as [|k IH]; intros c.
  - cbn. now rewrite Rplus_0_r.
  - cbn [repeat fold_left]. rewrite zip_add_scaled, IH, S_INR.
    f_equal. f_equal. lra.
Qed.

Lemma tensor_scale_one (g : Tensor) : tensor_scale 1 g = g.
Proof.
  destruct g as [v r]. unfold tensor_scale. cbn. f_equal.
  induction v as [|x v IH]; [reflexivity|].
  cbn. rewrite IH. f_equal. lra.
Qed.

Lemma tensor_scale_inverse (c : R) (g : Tensor) :
  c <> 0%R -> tensor_scale (1 / c) (tensor_scale c g) = g.
Proof.
  intros Hc. destruct g as [v r]. unfold tensor_scale. cbn. f_equal.
  induction v as [|x v IH]; [reflexivity|].
  cbn. rewrite IH. f_equal. now field.
Qed.

(** [k + 1] members contributing the same list, scaled by [1 / (k + 1)]:
    every tensor comes back as it went in. *)
Lemma xm_all_reduce_identical (k : nat) (gs : list Tensor) :
  xm_all_reduce (1 / IZR (Z.of_nat (S k))) gs (repeat gs k) = gs.
Proof.
  unfold xm_all_reduce.
  assert (E : map (tensor_scale 1) gs = gs)
    by (rewrite <- (map_id gs) at 2; apply map_ext, tensor_scale_one).
  pose proof (sum_of_copies k 1 gs) as Hsum. rewrite E in Hsum.
  rewrite Hsum, map_map.
  rewrite <- INR_IZR_INZ, S_INR.
  rewrite <- (map_id gs) at 2. apply map_ext. intros g.
  rewrite (Rplus_comm (INR k) 1). apply tensor_scale_inverse.
  pose proof (pos_INR k). lra.
Qed.

(** *** The method in closed form *)

Lemma all_reduce_grads_run
    (self : TPUDistributedDataParallel_obj) (peers : list (list Tensor)) :
  all_reduce_grads self peers
  = if existsb offending (parameters self) then
      (inl (RuntimeError TPU_error),
       with_parameters self (fill_until_offending (parameters self)), [])
    else if (self_world_size self =? 0)%Z then
      (inl ZeroDivisionError,
       with_parameters self (map zero_fill (parameters self)), [])
    else
      (inr tt,
       with_parameters self
         (store_gradients
            (map zero_fill (parameters self))
            (xm_all_reduce (1 / IZR (self_world_size self))
               (flat_map contribution (parameters self)) peers)),
       [{| reduce_type := "sum";
           inputs := flat_map contribution (parameters self);
           scale := (1 / IZR (self_world_size self))%R;
           groups := pg_replica_groups (self_process_group self) |}]).
Proof.
  unfold all_reduce_grads. rewrite collect_gradients_run.
  destruct (existsb offending (parameters self)) eqn:Hoff; [reflexivity|].
  rewrite (fill_all _ Hoff). cbn [app].
  destruct (self_world_size self =? 0)%Z; reflexivity.
Qed.

Lemma existsb_offending_iff (ps : list Param) :
  existsb offending ps = true
  <-> exists p g, In p ps /\ requires_grad p = true /\ grad p = Some g
                  /\ tensor_requires_grad g = true.
Proof.
  rewrite existsb_exists. split.
  - intros (p & Hin & Hoff). unfold offending in Hoff.
    apply andb_true_iff in Hoff. destruct Hoff as [Hr Hg].
    destruct (grad p) as [g|] eqn:E; [|discriminate].
    exists p, g. repeat split; assumption.
  - intros (p & g & Hin & Hr & Hg & Hgr). exists p. split; [assumption|].
    unfold offending. now rewrite Hr, Hg.
Qed.

(** Parameters that do not require gradients stay where and as they are. *)
Lemma fill_until_offending_frozen (ps : list Param) (i : nat) (q : Param) :
  nth_error ps i = Some q -> requires_grad q = false ->
  nth_error (fill_until_offending ps) i = Some q.
Proof.
  revert i. induction ps as [|p rest IH]; intros i Hi Hq.
  - destruct i; discriminate.
  - cbn. destruct (offending p); [assumption|].
    destruct i as [|i]; cbn in *.
    + injection Hi as ->. now destruct (contribution_frozen q Hq) as [_ ->].
    + now apply IH.
Qed.

Lemma store_gradients_frozen
    (ps : list Param) (reduced : list Tensor) (i : nat) (q : Param) :
  nth_error ps i = Some q -> requires_grad q = false ->
  nth_error (store_gradients (map zero_fill ps) reduced) i = Some q.
Proof.
  revert reduced i. induction ps as [|p rest IH]; intros reduced i Hi Hq.
  - destruct i; discriminate.
  - cbn [map store_gradients]. rewrite zero_fill_requires_grad.
    destruct (requires_grad p) eqn:Hr.
    + destruct reduced as [|g reduced].
      * change (zero_fill p :: map zero_fill rest)
          with (map zero_fill (p :: rest)).
        rewrite nth_error_map, Hi. cbn.
        now destruct (contribution_frozen q Hq) as [_ ->].
      * destruct i as [|i]; cbn in *.
        -- injection Hi as ->. congruence.
        -- now apply IH.
    + destruct i as [|i]; cbn in *.
      * injection Hi as ->. now destruct (contribution_frozen q Hq) as [_ ->].
      * now apply IH.
Qed.

Lemma all_equal_repeat (A : Type) (x : A) (l : list A) :
  (forall y, In y l -> y = x) -> l = repeat x (List.length l).
Proof.
  induction l as [|a l IH]; intros H; [reflexivity|].
  cbn. rewrite (H a (or_introl eq_refl)). f_equal.
  apply IH. intros y Hy. apply H. now right.
Qed.

Lemma parameters_with_parameters
    (self : TPUDistributedDataParallel_obj) (ps : list Param) :
  parameters (with_parameters self ps) = ps.
Proof. reflexivity. Qed.

(** C6.  Where no gradient requires differentiation and the world size is
    the number of members of the group (this one and its peers), the call
    succeeds; a parameter that requires a gradient and has none is given a
    zero tensor of its own shape; exactly one collective is issued, a sum
    over the gradients the zero-filled parameters hold, scaled by one over
    the world size; and when every peer contributes the same gradients as
    this member, each parameter ends with the very gradient it
    contributed. *)
Theorem all_reduce_grads_averages
    (self : TPUDistributedDataParallel_obj) (peers : list (list Tensor))
    (Hleaf : forall p g,
        In p (parameters self) -> requires_grad p = true ->
        grad p = Some g -> tensor_requires_grad g = false)
    (Hworld : self_world_size self = Z.of_nat (S (List.length peers))) :
  let ps := parameters self in
  let run := all_reduce_grads self peers in
  let gradients := held_gradients (map zero_fill ps) in
  fst (fst run) = inr tt
  /\ (forall p, In p ps -> requires_grad p = true -> grad p = None ->
        grad (zero_fill p)
        = Some {| values := repeat 0%R (List.length (data p));
                  tensor_requires_grad := false |})
  /\ snd run
     = [{| reduce_type := "sum";
           inputs := gradients;
           scale := (1 / IZR (self_world_size self))%R;
           groups := pg_replica_groups (self_process_group self) |}]
  /\ parameters (snd (fst run))
     = store_gradients (map zero_fill ps)
         (xm_all_reduce (1 / IZR (self_world_size self)) gradients peers)
  /\ ((forall contrib, In contrib peers -> contrib = gradients) ->
      parameters (snd (fst run)) = map zero_fill ps).
Proof.
  intros ps run gradients.
  assert (Hoff : existsb offending ps = false).
  { destruct (existsb offending ps) eqn:E; [|reflexivity].
    apply existsb_offending_iff in E.
    destruct E as (p & g & Hin & Hr & Hg & Hgr).
    rewrite (Hleaf p g Hin Hr Hg) in Hgr. discriminate. }
  assert (Hnz : (self_world_size self =? 0)%Z = false)
    by (apply Z.eqb_neq; lia).
  unfold run. rewrite all_reduce_grads_run. fold ps. rewrite Hoff, Hnz.
  cbn [fst snd]. unfold gradients. rewrite <- contribution_held.
  repeat split.
  - intros p Hin Hr Hg. unfold zero_fill. now rewrite Hr, Hg.
  - intros Hsame. rewrite parameters_with_parameters, Hworld.
    apply all_equal_repeat in Hsame.
    remember (List.length peers) as k eqn:Hk. clear Hk. subst peers.
    rewrite xm_all_reduce_identical. apply store_held.
Qed.

Lemma all_reduce_grads_averages_witness :
  let self := sample_tpu [frozen_param; fresh_param; trained_param] in
  let mine :=
    [{| values := [0; 0; 0]%R; tensor_requires_grad := false |};
     {| values := [2]%R; tensor_requires_grad := false |}] in
  parameters (snd (fst (all_reduce_grads self [mine; mine; mine])))
  = [frozen_param;
     {| data := [3; 4; 5]%R; requires_grad := true;
        grad := Some {| values := [0; 0; 0]%R;
                        tensor_requires_grad := false |} |};
     trained_param].
Proof.
  cbv zeta.
  apply (@all_reduce_grads_averages
           (sample_tpu [frozen_param; fresh_param; trained_param])
           (repeat [{| values := [0; 0; 0]%R; tensor_requires_grad := false |};
                    {| values := [2]%R; tensor_requires_grad := false |}] 3)).
  - intros p g [<-|[<-|[<-|[]]]] Hr Hg; try discriminate.
    injection Hg as <-. reflexivity.
  - reflexivity.
  - intros contrib [<-|[<-|[<-|[]]]]; reflexivity.
Defined.

Lemma sample_second_order_raises :
  fst (fst (all_reduce_grads
              (sample_tpu [frozen_param; fresh_param; second_order_param])
              []))
  = inl (RuntimeError TPU_error).
Proof. reflexivity. Qed.

(** C9.  The call raises the [RuntimeError] of lines 175-178 exactly when
    some parameter that requires a gradient holds a gradient that itself
    requires differentiation; it then raises once, without issuing the
    collective. *)
Theorem all_reduce_grads_invariant_violation
    (self : TPUDistributedDataParallel_obj) (peers : list (list Tensor)) :
  let run := all_reduce_grads self peers in
  (fst (fst run) = inl (RuntimeError TPU_error)
   <-> exists p g,
         In p (parameters self) /\ requires_grad p = true
         /\ grad p = Some g /\ tensor_requires_grad g = true)
  /\ (fst (fst run) = inl (RuntimeError TPU_error) -> snd run = [])
  /\ (forall msg, fst (fst run) = inl (RuntimeError msg) -> msg = TPU_error).
Proof.
  intros run. unfold run. rewrite all_reduce_grads_run.
  rewrite <- existsb_offending_iff.
  destruct (existsb offending (parameters self)) eqn:Hoff.
  - cbn [fst snd]. repeat split; intros; congruence.
  - destruct (self_world_size self =? 0)%Z; cbn [fst snd];
      repeat split; intros; discriminate.
Qed.

Lemma all_reduce_grads_invariant_violation_witness :
  fst (fst (all_reduce_grads
              (sample_tpu [frozen_param; fresh_param; second_order_param])
              []))
  = inl (RuntimeError TPU_error)
  /\ snd (all_reduce_grads
            (sample_tpu [frozen_param; fresh_param; second_order_param]) [])
     = [].
Proof.
  pose proof (@all_reduce_grads_invariant_violation
                (sample_tpu [frozen_param; fresh_param; second_order_param])
                []) as (Hiff & Hnone & _).
  assert (Hraise :
            fst (fst (all_reduce_grads
                        (sample_tpu [frozen_param; fresh_param;
                                     second_order_param]) []))
            = inl (RuntimeError TPU_error)).
  { apply Hiff. exists second_order_param.
    exists {| values := [1]%R; tensor_requires_grad := true |}.
    cbn. repeat split; auto. }
  split; [exact Hraise | exact (Hnone Hraise)].
Defined.

(** C10.  When the call raises that error, the parameters before the first
    offending one have been zero-filled and stay so, the offending one and
    those after it are as they were.  Whatever the outcome, a parameter that
    does not require a gradient is left in place unchanged, and a collective
    that is issued receives only the gradients held by the parameters that
    do require one. *)
Theorem all_reduce_grads_not_atomic
    (self : TPUDistributedDataParallel_obj) (peers : list (list Tensor)) :
  let ps := parameters self in
  let run := all_reduce_grads self peers in
  let ps' := parameters (snd (fst run)) in
  (fst (fst run) = inl (RuntimeError TPU_error) ->
   exists pre p post,
     ps = pre ++ p :: post
     /\ (forall q, In q pre -> offending q = false)
     /\ offending p = true
     /\ ps' = map zero_fill pre ++ p :: post)
  /\ (forall i q,
        nth_error ps i = Some q -> requires_grad q = false ->
        nth_error ps' i = Some q)
  /\ (forall call,
        In call (snd run) ->
        inputs call = held_gradients (map zero_fill ps)).
Proof.
  intros ps run ps'. unfold ps', run. rewrite all_reduce_grads_run. fold ps.
  destruct (existsb offending ps) eqn:Hoff; cbn [fst snd].
  - rewrite parameters_with_parameters. repeat split.
    + intros _. destruct (fill_split ps Hoff) as (pre & p & post & E & Hpre & Hp & Hf).
      exists pre, p, post. repeat split; try assumption.
      intros q Hq. destruct (offending q) eqn:Eq; [|reflexivity].
      assert (existsb offending pre = true)
        by (apply existsb_exists; now exists q).
      congruence.
    + intros i q. apply fill_until_offending_frozen.
    + intros call [].
  - destruct (self_world_size self =? 0)%Z; cbn [fst snd];
      rewrite parameters_with_parameters; repeat split.
    + intros H. discriminate H.
    + intros i q Hi Hq. rewrite <- (fill_all _ Hoff).
      now apply fill_until_offending_frozen.
    + intros call [].
    + intros H. discriminate H.
    + intros i q. apply store_gradients_frozen.
    + intros call [<-|[]]. cbn. apply contribution_held.
Qed.

Lemma all_reduce_grads_not_atomic_witness :
  parameters
    (snd (fst (all_reduce_grads
                 (sample_tpu [frozen_param; fresh_param; second_order_param])
                 [])))
  = [frozen_param;
     {| data := [3; 4; 5]%R; requires_grad := true;
        grad := Some {| values := [0; 0; 0]%R;
                        tensor_requires_grad := false |} |};
     second_order_param].
Proof.
  destruct (@all_reduce_grads_not_atomic
              (sample_tpu [frozen_param; fresh_param; second_order_param])
              []) as (Hraise & _ & _).
  destruct Hraise as (pre & p & post & E & Hpre & Hp & Hps').
  { apply sample_second_order_raises. }
  rewrite Hps'. clear Hps'.
  cbn in E.
  destruct pre as [|a [|b [|c pre]]]; cbn in E.
  - injection E as <- _. discriminate Hp.
  - injection E as _ <- _. discriminate Hp.
  - injection E as <- <- <- <-. reflexivity.
  - injection E as _ _ _ E. destruct pre; discriminate E.
Defined.

(* ================================================================== *)
(** * Part III.  Further properties of the embedded code              *)
(* ================================================================== *)

(** ** The norm aggregator of [megatron_trainer.py] *)

Lemma aggregate_value (n : R) (peers : list R) (st : TrainerState) :
  fst (_aggregate_model_parallel_grad_norm (squares peers) n st)
  = sqrt (sum_sq (n :: peers)).
Proof.
  unfold _aggregate_model_parallel_grad_norm, squares. cbn [fst].
  now rewrite all_reduce_squares.
Qed.

Lemma sum_sq_cons (m : R) (l : list R) :
  sum_sq (m :: l) = (m * m + sum_sq l)%R.
Proof. unfold sum_sq. cbn. lra. Qed.

Lemma sum_sq_ge_0 (norms : list R) : (0 <= sum_sq norms)%R.
Proof.
  induction norms as [|m norms IH].
  - cbn. lra.
  - rewrite sum_sq_cons. nra.
Qed.

Lemma sum_sq_app (l1 l2 : list R) :
  sum_sq (l1 ++ l2) = (sum_sq l1 + sum_sq l2)%R.
Proof.
  induction l1 as [|m l1 IH].
  - cbn [app]. change (sum_sq []) with 0%R. lra.
  - cbn [app]. rewrite !sum_sq_cons, IH. lra.
Qed.

Lemma sum_sq_permutation (l1 l2 : list R) :
  Permutation l1 l2 -> sum_sq l1 = sum_sq l2.
Proof.
  induction 1 as [|x l l' _ IH|x y l|l l' l'' _ IH1 _ IH2].
  - reflexivity.
  - rewrite !sum_sq_cons. now rewrite IH.
  - rewrite !sum_sq_cons. lra.
  - congruence.
Qed.

Lemma sum_sq_scaled (c : R) (l : list R) :
  sum_sq (map (Rmult c) l) = (c * c * sum_sq l)%R.
Proof.
  induction l as [|m l IH].
  - cbn. lra.
  - cbn [map]. rewrite !sum_sq_cons, IH. lra.
Qed.

Lemma sum_norms_cons (m : R) (l : list R) :
  sum_norms (m :: l) = (m + sum_norms l)%R.
Proof. reflexivity. Qed.

Lemma sum_sq_le_square_of_sum (l : list R) :
  Forall (fun m => 0 <= m)%R l ->
  (0 <= sum_norms l /\ sum_sq l <= sum_norms l * sum_norms l)%R.
Proof.
  induction 1 as [|m l Hm _ [IH0 IH]].
  - cbn. lra.
  - rewrite sum_sq_cons, sum_norms_cons. split; [lra | nra].
Qed.

Lemma sum_sq_member (l : list R) (m : R) :
  In m l -> (m * m <= sum_sq l)%R.
Proof.
  induction l as [|x l IH]; intros Hin; [destruct Hin|].
  rewrite sum_sq_cons. destruct Hin as [->|Hin].
  - pose proof (sum_sq_ge_0 l). lra.
  - specialize (IH Hin). nra.
Qed.

(** X1.  Every member of a model-parallel group obtains the same global
    norm: whichever member runs the aggregator, with the others as its
    peers, the value returned is the same. *)
Theorem aggregate_same_on_every_member
    (n m : R) (peers others : list R) (st st' : TrainerState)
    (Hgroup : Permutation (n :: peers) (m :: others)) :
  fst (_aggregate_model_parallel_grad_norm (squares peers) n st)
  = fst (_aggregate_model_parallel_grad_norm (squares others) m st').
Proof.
  rewrite !aggregate_value. f_equal. now apply sum_sq_permutation.
Qed.

Lemma aggregate_same_on_every_member_witness :
  fst (_aggregate_model_parallel_grad_norm (squares [4; 12]%R) 3%R
         {| shard_grads := [] |})
  = fst (_aggregate_model_parallel_grad_norm (squares [3; 4]%R) 12%R
           {| shard_grads := [[1%R]] |}).
Proof.
  apply aggregate_same_on_every_member.
  apply Permutation_sym.
  apply (@Permutation_cons_app R [3; 4]%R [3; 4]%R [] 12%R).
  rewrite app_nil_r. apply Permutation_refl.
Defined.

(** X2.  For non-negative local norms the global norm is at least every
    member's local norm and at most the sum of all of them. *)
Theorem aggregate_bounds
    (n : R) (peers : list R) (st : TrainerState)
    (Hn : (0 <= n)%R) (Hpeers : Forall (fun m => 0 <= m)%R peers) :
  let total :=
    fst (_aggregate_model_parallel_grad_norm (squares peers) n st) in
  (n <= total)%R
  /\ (forall m, In m peers -> (m <= total)%R)
  /\ (total <= n + sum_norms peers)%R.
Proof.
  intros total. unfold total. rewrite aggregate_value.
  assert (Hall : Forall (fun m => 0 <= m)%R (n :: peers))
    by now constructor.
  assert (Hmember : forall m, In m (n :: peers) ->
                              (m <= sqrt (sum_sq (n :: peers)))%R).
  { intros m Hin.
    assert (Hm : (0 <= m)%R)
      by (rewrite Forall_forall in Hall; now apply Hall).
    rewrite <- (sqrt_square m Hm) at 1.
    apply sqrt_le_1_alt. now apply sum_sq_member. }
  split; [apply Hmember; now left|].
  split; [intros m Hin; apply Hmember; now right|].
  destruct (sum_sq_le_square_of_sum Hall) as [H0 Hle].
  rewrite sum_norms_cons in H0, Hle.
  rewrite <- (sqrt_square (n + sum_norms peers) H0) at 1.
  now apply sqrt_le_1_alt.
Qed.

Lemma aggregate_bounds_witness :
  let total :=
    fst (_aggregate_model_parallel_grad_norm (squares [4]%R) 3%R
           {| shard_grads := [] |}) in
  (3 <= total)%R
  /\ (forall m, In m [4%R] -> (m <= total)%R)
  /\ (total <= 3 + sum_norms [4%R])%R.
Proof.
  apply (@aggregate_bounds 3%R [4%R] {| shard_grads := [] |}).
  - lra.
  - repeat constructor. lra.
Defined.

(** X3.  Aggregation composes over subgroups: aggregating the global norms
    of two disjoint subgroups, taken as a group of two, gives the global
    norm of their union. *)
Theorem aggregate_of_subgroup_norms
    (n m : R) (peers others : list R) (st : TrainerState) :
  let left_norm :=
    fst (_aggregate_model_parallel_grad_norm (squares peers) n st) in
  let right_norm :=
    fst (_aggregate_model_parallel_grad_norm (squares others) m st) in
  fst (_aggregate_model_parallel_grad_norm (squares [right_norm])
         left_norm st)
  = fst (_aggregate_model_parallel_grad_norm
           (squares (peers ++ m :: others)) n st).
Proof.
  intros left_norm right_norm. unfold left_norm, right_norm.
  rewrite !aggregate_value. f_equal.
  change (n :: peers ++ m :: others) with ((n :: peers) ++ m :: others).
  rewrite sum_sq_app.
  rewrite (sum_sq_cons (sqrt (sum_sq (n :: peers)))).
  rewrite (sum_sq_cons (sqrt (sum_sq (m :: others))) []).
  rewrite !sqrt_sqrt by apply sum_sq_ge_0.
  cbn [sum_sq fold_right]. lra.
Qed.

(** X4.  The aggregator never returns a negative value; on a group of one
    it returns the absolute value of its input, whatever its sign; and
    members whose local norm is zero do not change the result. *)
Theorem aggregate_sign_and_zero_members
    (n : R) (peers : list R) (k : nat) (st : TrainerState) :
  (0 <= fst (_aggregate_model_parallel_grad_norm (squares peers) n st))%R
  /\ fst (_aggregate_model_parallel_grad_norm (squares []) n st) = Rabs n
  /\ fst (_aggregate_model_parallel_grad_norm
            (squares (peers ++ repeat 0%R k)) n st)
     = fst (_aggregate_model_parallel_grad_norm (squares peers) n st).
Proof.
  rewrite !aggregate_value. repeat split.
  - apply sqrt_pos.
  - rewrite sum_sq_cons. cbn [sum_sq fold_right].
    replace (n * n + 0)%R with (Rsqr n) by (unfold Rsqr; lra).
    apply sqrt_Rsqr_abs.
  - f_equal. change (n :: peers ++ repeat 0%R k)
      with ((n :: peers) ++ repeat 0%R k).
    rewrite sum_sq_app, sum_sq_repeat. lra.
Qed.

(** X5.  Scaling every local norm of the group by the same non-negative
    factor scales the global norm by that factor. *)
Theorem aggregate_homogeneous
    (c n : R) (peers : list R) (st : TrainerState) (Hc : (0 <= c)%R) :
  fst (_aggregate_model_parallel_grad_norm
         (squares (map (Rmult c) peers)) (c * n) st)
  = (c * fst (_aggregate_model_parallel_grad_norm (squares peers) n st))%R.
Proof.
  rewrite !aggregate_value.
  change ((c * n)%R :: map (Rmult c) peers) with (map (Rmult c) (n :: peers)).
  rewrite sum_sq_scaled.
  rewrite sqrt_mult by (try apply sum_sq_ge_0; nra).
  now rewrite sqrt_square.
Qed.

Lemma aggregate_homogeneous_witness :
  fst (_aggregate_model_parallel_grad_norm
         (squares (map (Rmult 2) [4%R])) (2 * 3) {| shard_grads := [] |})
  = (2 * fst (_aggregate_model_parallel_grad_norm (squares [4%R]) 3
                {| shard_grads := [] |}))%R.
Proof.
  apply (@aggregate_homogeneous 2%R 3%R [4%R] {| shard_grads := [] |}).
  lra.
Defined.

(** ** The selection step of [DistributedFairseqModel] *)

Section SelectionRuns.

Variable env : Env.
Variable model : NNModule.
Variable process_group : ProcessGroup.

(** The dense branch (lines 50-64) with its keyword arguments written out. *)
Lemma select_dense_run (s : St) :
  tpu (st_args s) = false ->
  distributed_wrapper (st_args s) = "DDP" ->
  ddp_backend (st_args s) = "c10d" ->
  select_ddp_class env model process_group s
  = (inr (nn_parallel_DistributedDataParallel,
          let base :=
            [("module", VModule model);
             ("device_ids", VIntList [device_id (st_args s)]);
             ("output_device", VInt (device_id (st_args s)));
             ("broadcast_buffers", VBool (broadcast_buffers (st_args s)));
             ("bucket_cap_mb", VInt (bucket_cap_mb (st_args s)));
             ("process_group", VGroup process_group)] in
          let checked :=
            if in_argspec env "check_reduction"
            then dict_set base "check_reduction" (VBool true)
            else base in
          if in_argspec env "find_unused_parameters"
          then dict_set checked "find_unused_parameters"
                 (VBool (find_unused_parameters (st_args s)))
          else checked),
     s).
Proof.
  intros Ht Hw Hb. unfold select_ddp_class, bind, read_args.
  rewrite Ht, Hw, Hb. reflexivity.
Qed.

(** The gossip branch (lines 72-101) with its keyword arguments written
    out; they are read from [args] after the default ladder has run. *)
Lemma select_gossip_run (s : St) :
  tpu (st_args s) = false ->
  distributed_wrapper (st_args s) = "SlowMo" ->
  _GOSSIP_DISABLED env = false ->
  let s1 := snd (default_slowmo_momentum s) in
  select_ddp_class env model process_group s
  = (inr (gossip_GossipDataParallel,
          [("module", VModule model);
           ("device_ids", VIntList [device_id (st_args s1)]);
           ("output_device", VInt (device_id (st_args s1)));
           ("broadcast_buffers", VBool (broadcast_buffers (st_args s1)));
           ("nprocs_per_node", VInt (nprocs_per_node (st_args s1)));
           ("slowmo_momentum", option_float (slowmo_momentum (st_args s1)));
           ("localsgd", VBool (slowmo_algorithm (st_args s1) =? "LocalSGD"));
           ("localsgd_frequency", VInt (localsgd_frequency (st_args s1)))]),
     s1).
Proof.
  intros Ht Hw Hg s1. unfold select_ddp_class. unfold bind at 1.
  unfold read_args at 1. rewrite Ht, Hw, Hg.
  cbn [String.eqb Ascii.eqb Bool.eqb andb].
  unfold bind. unfold s1.
  destruct (default_slowmo_momentum s) as [[e|[]] s2] eqn:E.
  - rewrite default_slowmo_momentum_run in E. discriminate E.
  - reflexivity.
Qed.

(** Once the momentum is set the ladder does nothing. *)
Lemma default_slowmo_momentum_set (s : St) (m : Q) :
  slowmo_momentum (st_args s) = Some m ->
  default_slowmo_momentum s = (inr tt, s).
Proof.
  intros H. rewrite default_slowmo_momentum_run. now rewrite H.
Qed.

(** The ladder leaves the momentum set and the other fields alone. *)
Lemma default_slowmo_momentum_after (s : St) :
  let a := st_args s in
  let a1 := st_args (snd (default_slowmo_momentum s)) in
  (exists m, slowmo_momentum a1 = Some m)
  /\ tpu a1 = tpu a
  /\ distributed_wrapper a1 = distributed_wrapper a.
Proof.
  intros a a1. unfold a1, a. rewrite default_slowmo_momentum_run. cbn [snd].
  destruct (slowmo_momentum (st_args s)) as [m|] eqn:Hm.
  - split; [now exists m | now split].
  - cbn. split; [eexists; reflexivity | now split].
Qed.

(** Every branch other than the gossip one leaves the state as it was. *)
Lemma select_elsewhere (s : St) :
  tpu (st_args s) = true
  \/ distributed_wrapper (st_args s) <> "SlowMo"
  \/ _GOSSIP_DISABLED env = true ->
  snd (select_ddp_class env model process_group s) = s.
Proof.
  intros H.
  destruct (tpu (st_args s)) eqn:Ht; [now rewrite select_tpu|].
  destruct (String.eqb_spec (distributed_wrapper (st_args s)) "SlowMo")
    as [Hw|Hw].
  - destruct H as [H|[H|H]]; [discriminate | contradiction |].
    now rewrite select_gossip_missing.
  - apply String.eqb_neq in Hw.
    unfold select_ddp_class, bind, read_args. rewrite Ht, Hw.
    repeat match goal with
           | |- context [if ?b then _ else _] => destruct b
           end; reflexivity.
Qed.

End SelectionRuns.

(** X6.  Selection is idempotent: run again on the namespace it left
    behind, it gives the same class and keyword arguments (or the same
    error) and changes nothing further. *)
Theorem selection_idempotent
    (env : Env) (model : NNModule) (process_group : ProcessGroup) (s : St) :
  let first := select_ddp_class env model process_group s in
  select_ddp_class env model process_group (snd first)
  = (fst first, snd first).
Proof.
  intros first. unfold first.
  assert (Hsame : snd (select_ddp_class env model process_group s) = s ->
                  select_ddp_class env model process_group
                    (snd (select_ddp_class env model process_group s))
                  = (fst (select_ddp_class env model process_group s),
                     snd (select_ddp_class env model process_group s))).
  { intros H. rewrite H at 1. apply surjective_pairing. }
  destruct (tpu (st_args s)) eqn:Ht.
  { apply Hsame, select_elsewhere. now left. }
  destruct (String.eqb_spec (distributed_wrapper (st_args s)) "SlowMo")
    as [Hw|Hw].
  2:{ apply Hsame, select_elsewhere. right. now left. }
  destruct (_GOSSIP_DISABLED env) eqn:Hg.
  { apply Hsame, select_elsewhere. right. now right. }
  clear Hsame.
  rewrite (select_gossip_run env model process_group s Ht Hw Hg).
  cbn [fst snd].
  destruct (default_slowmo_momentum_after s) as ([m Hm] & Ht1 & Hw1).
  rewrite Ht in Ht1. rewrite Hw in Hw1.
  rewrite (select_gossip_run env model process_group _ Ht1 Hw1 Hg).
  now rewrite (default_slowmo_momentum_set _ Hm).
Qed.

(** X7.  The [tpu] flag overrides everything else: whatever the wrapper,
    the backend, the momentum and the presence of the gossip library, the
    accelerator class is selected with exactly the model and the process
    group as arguments, and the state is left as it was. *)
Theorem tpu_flag_overrides
    (env : Env) (model : NNModule) (process_group : ProcessGroup) (s : St)
    (Htpu : tpu (st_args s) = true) :
  select_ddp_class env model process_group s
  = (inr (TPUDistributedDataParallel,
          [("module", VModule model);
           ("process_group", VGroup process_group)]), s)
  /\ forall env' s',
       tpu (st_args s') = true ->
       fst (select_ddp_class env' model process_group s')
       = fst (select_ddp_class env model process_group s).
Proof.
  split; [now apply select_tpu|].
  intros env' s' Htpu'. now rewrite !select_tpu.
Qed.

Lemma tpu_flag_overrides_witness :
  select_ddp_class (sample_env true None) sample_model sample_group
    (start (sample_args true "SlowMo" "gloo" None 8))
  = (inr (TPUDistributedDataParallel,
          [("module", VModule sample_model);
           ("process_group", VGroup sample_group)]),
     start (sample_args true "SlowMo" "gloo" None 8)).
Proof.
  apply (@tpu_flag_overrides (sample_env true None) sample_model sample_group
           (start (sample_args true "SlowMo" "gloo" None 8)) eq_refl).
Defined.

(** X8.  On the dense branch the six basic arguments are always passed with
    the values of [args]; [check_reduction] is passed, as [True], exactly
    when the installed class accepts it, and [find_unused_parameters], with
    the value of [args], exactly when the installed class accepts it. *)
Theorem dense_kwargs_follow_argspec
    (env : Env) (model : NNModule) (process_group : ProcessGroup) (s : St)
    (Htpu : tpu (st_args s) = false)
    (Hwrapper : distributed_wrapper (st_args s) = "DDP")
    (Hbackend : ddp_backend (st_args s) = "c10d") :
  exists kw,
    select_ddp_class env model process_group s
    = (inr (nn_parallel_DistributedDataParallel, kw), s)
    /\ dict_get kw "module" = Some (VModule model)
    /\ dict_get kw "device_ids" = Some (VIntList [device_id (st_args s)])
    /\ dict_get kw "output_device" = Some (VInt (device_id (st_args s)))
    /\ dict_get kw "broadcast_buffers"
       = Some (VBool (broadcast_buffers (st_args s)))
    /\ dict_get kw "bucket_cap_mb" = Some (VInt (bucket_cap_mb (st_args s)))
    /\ dict_get kw "process_group" = Some (VGroup process_group)
    /\ dict_get kw "check_reduction"
       = (if in_argspec env "check_reduction"
          then Some (VBool true) else None)
    /\ dict_get kw "find_unused_parameters"
       = (if in_argspec env "find_unused_parameters"
          then Some (VBool (find_unused_parameters (st_args s))) else None)
    /\ List.length kw
       = (6 + (if in_argspec env "check_reduction" then 1 else 0)
            + (if in_argspec env "find_unused_parameters" then 1 else 0))%nat.
Proof.
  eexists. split; [now apply select_dense_run|].
  cbv zeta.
  destruct (in_argspec env "check_reduction");
    destruct (in_argspec env "find_unused_parameters");
    repeat split; reflexivity.
Qed.

Lemma dense_kwargs_follow_argspec_witness :
  exists kw,
    select_ddp_class (sample_env false None) sample_model sample_group
      (start (sample_args false "DDP" "c10d" None 8))
    = (inr (nn_parallel_DistributedDataParallel, kw),
       start (sample_args false "DDP" "c10d" None 8))
    /\ dict_get kw "check_reduction" = Some (VBool true)
    /\ dict_get kw "find_unused_parameters" = Some (VBool false).
Proof.
  destruct (@dense_kwargs_follow_argspec
              (sample_env false None) sample_model sample_group
              (start (sample_args false "DDP" "c10d" None 8))
              eq_refl eq_refl eq_refl)
    as (kw & Hsel & _ & _ & _ & _ & _ & _ & Hcheck & Hfind & _).
  exists kw. repeat split; assumption.
Defined.

(** X9.  On the gossip branch the constructor is never given a process
    group or a bucket size; [localsgd] is set exactly when
    [args.slowmo_algorithm] is [LocalSGD]; and a momentum the user has set
    is passed on as it is, with [args] left untouched. *)
Theorem gossip_kwargs
    (env : Env) (model : NNModule) (process_group : ProcessGroup) (s : St)
    (Htpu : tpu (st_args s) = false)
    (Hwrapper : distributed_wrapper (st_args s) = "SlowMo")
    (Hgossip : _GOSSIP_DISABLED env = false) :
  exists kw,
    fst (select_ddp_class env model process_group s)
    = inr (gossip_GossipDataParallel, kw)
    /\ dict_get kw "process_group" = None
    /\ dict_get kw "bucket_cap_mb" = None
    /\ dict_get kw "localsgd"
       = Some (VBool (slowmo_algorithm (st_args s) =? "LocalSGD"))
    /\ (forall m,
          slowmo_momentum (st_args s) = Some m ->
          snd (select_ddp_class env model process_group s) = s
          /\ dict_get kw "slowmo_momentum" = Some (VFloat m)).
Proof.
  rewrite (select_gossip_run env model process_group s Htpu Hwrapper Hgossip).
  eexists. split; [reflexivity|].
  split; [reflexivity|]. split; [reflexivity|]. split.
  - rewrite default_slowmo_momentum_run. cbn [snd].
    destruct (slowmo_momentum (st_args s)); reflexivity.
  - intros m Hm. rewrite (default_slowmo_momentum_set _ Hm).
    cbn [snd]. split; [reflexivity|].
    cbn [dict_get String.eqb Ascii.eqb Bool.eqb]. now rewrite Hm.
Qed.

Lemma gossip_kwargs_witness :
  exists kw,
    fst (select_ddp_class (sample_env false None) sample_model sample_group
           (start (sample_args false "SlowMo" "c10d" (Some 0.3%Q) 8)))
    = inr (gossip_GossipDataParallel, kw)
    /\ dict_get kw "process_group" = None
    /\ dict_get kw "localsgd" = Some (VBool true)
    /\ dict_get kw "slowmo_momentum" = Some (VFloat 0.3%Q).
Proof.
  destruct (@gossip_kwargs (sample_env false None) sample_model sample_group
              (start (sample_args false "SlowMo" "c10d" (Some 0.3%Q) 8))
              eq_refl eq_refl eq_refl)
    as (kw & Hsel & Hpg & _ & Hlocal & Hmom).
  exists kw. repeat split; try assumption.
  apply (Hmom 0.3%Q eq_refl).
Defined.

(** X10.  The default momentum never decreases with the world size and
    always lies between 0 and 0.6: of two runs on the gossip branch with the
    momentum unset, the one with the larger world size is left with a
    momentum at least as large. *)
Theorem default_momentum_monotone
    (env : Env) (model : NNModule) (process_group : ProcessGroup)
    (s1 s2 : St)
    (Htpu1 : tpu (st_args s1) = false)
    (Hwrapper1 : distributed_wrapper (st_args s1) = "SlowMo")
    (Hunset1 : slowmo_momentum (st_args s1) = None)
    (Htpu2 : tpu (st_args s2) = false)
    (Hwrapper2 : distributed_wrapper (st_args s2) = "SlowMo")
    (Hunset2 : slowmo_momentum (st_args s2) = None)
    (Hgossip : _GOSSIP_DISABLED env = false)
    (Hworld : (distributed_world_size (st_args s1)
               <= distributed_world_size (st_args s2))%Z) :
  exists m1 m2,
    slowmo_momentum
      (st_args (snd (select_ddp_class env model process_group s1)))
    = Some m1
    /\ slowmo_momentum
         (st_args (snd (select_ddp_class env model process_group s2)))
       = Some m2
    /\ (0 <= m1)%Q /\ (m1 <= m2)%Q /\ (m2 <= 0.6)%Q.
Proof.
  rewrite (select_gossip_run env model process_group s1
             Htpu1 Hwrapper1 Hgossip).
  rewrite (select_gossip_run env model process_group s2
             Htpu2 Hwrapper2 Hgossip).
  cbn [snd]. rewrite !default_slowmo_momentum_run, Hunset1, Hunset2.
  cbn [snd st_args assign_slowmo_momentum slowmo_momentum].
  do 2 eexists. split; [reflexivity|]. split; [reflexivity|].
  destruct (Z.leb_spec (distributed_world_size (st_args s1)) 16);
    destruct (Z.leb_spec (distributed_world_size (st_args s1)) 32);
    destruct (Z.leb_spec (distributed_world_size (st_args s1)) 64);
    destruct (Z.leb_spec (distributed_world_size (st_args s2)) 16);
    destruct (Z.leb_spec (distributed_world_size (st_args s2)) 32);
    destruct (Z.leb_spec (distributed_world_size (st_args s2)) 64);
    try lia; repeat split; unfold Qle; cbn; lia.
Qed.

Lemma default_momentum_monotone_witness :
  exists m1 m2,
    slowmo_momentum
      (st_args (snd (select_ddp_class (sample_env false None) sample_model
                       sample_group
                       (start (sample_args false "SlowMo" "c10d" None 24)))))
    = Some m1
    /\ slowmo_momentum
         (st_args (snd (select_ddp_class (sample_env false None) sample_model
                          sample_group
                          (start (sample_args false "SlowMo" "c10d" None
                                    100)))))
       = Some m2
    /\ (0 <= m1)%Q /\ (m1 <= m2)%Q /\ (m2 <= 0.6)%Q.
Proof.
  apply (@default_momentum_monotone
           (sample_env false None) sample_model sample_group
           (start (sample_args false "SlowMo" "c10d" None 24))
           (start (sample_args false "SlowMo" "c10d" None 100))
           eq_refl eq_refl eq_refl eq_refl eq_refl eq_refl eq_refl).
  cbn. lia.
Defined.

(** ** The whole of [DistributedFairseqModel] *)

Section WholeFunction.

Variable env : Env.
Variable model : NNModule.
Variable process_group : ProcessGroup.

(** After a successful selection the function constructs the wrapper, runs
    the hook stage and returns the wrapper unless that stage raised. *)
Lemma DistributedFairseqModel_run
    (s s1 : St) (c : DDPClass) (kw : Kwargs) :
  select_ddp_class env model process_group s = (inr (c, kw), s1) ->
  DistributedFairseqModel env model process_group s
  = let m := {| ddp_class := c; init_kwargs := kw |} in
    match register_hook_from_env env process_group m
            {| st_args := st_args s1;
               st_trace := st_trace s ++ [Construct m] |} with
    | (inl e, s2) => (inl e, s2)
    | (inr _, s2) => (inr m, s2)
    end.
Proof.
  intros H.
  assert (Ht : st_trace s1 = st_trace s).
  { replace s1 with (snd (select_ddp_class env model process_group s))
      by now rewrite H.
    apply select_ddp_class_trace. }
  unfold DistributedFairseqModel. unfold bind at 1. rewrite H.
  cbn [fst snd]. unfold bind at 1. cbn [emit]. rewrite Ht.
  unfold bind.
  destruct (register_hook_from_env env process_group _ _) as [[e|u] s2];
    reflexivity.
Qed.

(** The trace when the chain of comparisons starts. *)
Lemma hook_prelude_after_construct (a : Args) (tr : list Event) (m : DDPModel) :
  hook_prelude env process_group
    {| st_args := a; st_trace := tr ++ [Construct m] |}
  = {| st_args := a;
       st_trace :=
         tr ++ [Construct m;
                Print " =================================================== ";
                match COMM_HOOK_TYPE env with
                | Some t => Print ("DDP communication hook " ++ t
                                   ++ " is registered")%string
                | None => Print "No DDP communication hook is registered."
                end;
                Print " =================================================== ";
                NewPowerSGDState
                  {| ps_process_group := process_group;
                     matrix_approximation_rank := 1;
                     start_powerSGD_iter := 2 |}] |}.
Proof.
  unfold hook_prelude. cbn [st_args st_trace].
  now rewrite <- app_assoc.
Qed.

End WholeFunction.

(** X11.  With [COMM_HOOK_TYPE] set to one of [POWER_SGD],
    [FP16_POWER_SGD], [BATCHED_POWER_SGD], [FP16_BATCHED_POWER_SGD], on a
    wrapper that offers [register_comm_hook], the call returns the wrapper
    and does exactly this, in order: construct the wrapper, print three
    lines, create a PowerSGD state of rank 1 starting at iteration 2 on the
    given process group, and register the one matching hook, with that
    state, on that wrapper. *)
Theorem comm_hook_registered
    (env : Env) (model : NNModule) (process_group : ProcessGroup)
    (s s1 : St) (c : DDPClass) (kw : Kwargs) (t : string) (h : Hook)
    (Hsel : select_ddp_class env model process_group s = (inr (c, kw), s1))
    (Henv : COMM_HOOK_TYPE env = Some t)
    (Hoffers : has_register_comm_hook env c = true)
    (Hhook : In (t, h)
                [("POWER_SGD", powerSGD_hook);
                 ("FP16_POWER_SGD", fp16_compress_wrapper powerSGD_hook);
                 ("BATCHED_POWER_SGD", batched_powerSGD_hook);
                 ("FP16_BATCHED_POWER_SGD",
                  fp16_compress_wrapper batched_powerSGD_hook)]) :
  let m := {| ddp_class := c; init_kwargs := kw |} in
  let state := {| ps_process_group := process_group;
                  matrix_approximation_rank := 1;
                  start_powerSGD_iter := 2 |} in
  DistributedFairseqModel env model process_group s
  = (inr m,
     {| st_args := st_args s1;
        st_trace :=
          st_trace s
          ++ [Construct m;
              Print " =================================================== ";
              Print ("DDP communication hook " ++ t ++ " is registered")%string;
              Print " =================================================== ";
              NewPowerSGDState state;
              RegisterCommHook m state h] |}).
Proof.
  intros m state.
  rewrite (@DistributedFairseqModel_run env model process_group s s1 c kw
             Hsel).
  cbv zeta.
  rewrite register_hook_from_env_run, hook_prelude_after_construct, Henv.
  unfold register_comm_hook. cbn [ddp_class]. rewrite Hoffers.
  cbn in Hhook.
  destruct Hhook as [E|[E|[E|[E|[]]]]]; inversion E; subst;
    cbn [String.eqb Ascii.eqb Bool.eqb]; unfold emit; cbn [st_args st_trace];
    rewrite <- app_assoc; reflexivity.
Qed.

Lemma comm_hook_registered_witness :
  exists m,
    registered_hooks
      (st_trace
         (snd (DistributedFairseqModel (sample_env false (Some "POWER_SGD"))
                 sample_model sample_group
                 (start (sample_args false "DDP" "c10d" None 8)))))
    = [(m, powerSGD_hook)]
    /\ ddp_class m = nn_parallel_DistributedDataParallel.
Proof.
  pose proof
    (@comm_hook_registered
       (sample_env false (Some "POWER_SGD")) sample_model sample_group
       (start (sample_args false "DDP" "c10d" None 8)) _ _ _
       "POWER_SGD" powerSGD_hook
       (@select_dense_run (sample_env false (Some "POWER_SGD")) sample_model
          sample_group (start (sample_args false "DDP" "c10d" None 8))
          eq_refl eq_refl eq_refl)
       eq_refl eq_refl (or_introl eq_refl)) as H.
  cbv zeta in H. rewrite H.
  eexists. split; reflexivity.
Defined.

(** X12.  With [COMM_HOOK_TYPE] absent the call returns the wrapper and
    registers no hook, yet it still prints its three lines and creates a
    PowerSGD state. *)
Theorem no_comm_hook_requested
    (env : Env) (model : NNModule) (process_group : ProcessGroup)
    (s s1 : St) (c : DDPClass) (kw : Kwargs)
    (Hsel : select_ddp_class env model process_group s = (inr (c, kw), s1))
    (Henv : COMM_HOOK_TYPE env = None) :
  let m := {| ddp_class := c; init_kwargs := kw |} in
  DistributedFairseqModel env model process_group s
  = (inr m,
     {| st_args := st_args s1;
        st_trace :=
          st_trace s
          ++ [Construct m;
              Print " =================================================== ";
              Print "No DDP communication hook is registered.";
              Print " =================================================== ";
              NewPowerSGDState
                {| ps_process_group := process_group;
                   matrix_approximation_rank := 1;
                   start_powerSGD_iter := 2 |}] |}).
Proof.
  intros m.
  rewrite (@DistributedFairseqModel_run env model process_group s s1 c kw
             Hsel).
  cbv zeta.
  rewrite register_hook_from_env_run, hook_prelude_after_construct, Henv.
  reflexivity.
Qed.

Lemma no_comm_hook_requested_witness :
  registered_hooks
    (st_trace
       (snd (DistributedFairseqModel (sample_env false None) sample_model
               sample_group
               (start (sample_args false "DDP" "no_c10d" None 8)))))
  = [].
Proof.
  pose proof
    (@no_comm_hook_requested
       (sample_env false None) sample_model sample_group
       (start (sample_args false "DDP" "no_c10d" None 8)) _ _ _
       (@select_legacy (sample_env false None) sample_model sample_group
          (start (sample_args false "DDP" "no_c10d" None 8))
          eq_refl eq_refl eq_refl)
       eq_refl) as H.
  cbv zeta in H. rewrite H. reflexivity.
Defined.

(** X13.  A value of [COMM_HOOK_TYPE] outside the five makes the call raise
    [ValueError] only after the wrapper has been constructed and the
    PowerSGD state created, and after a line has been printed that says the
    hook of that name is registered; no hook is registered. *)
Theorem unknown_comm_hook_raises_late
    (env : Env) (model : NNModule) (process_group : ProcessGroup)
    (s s1 : St) (c : DDPClass) (kw : Kwargs) (t : string)
    (Hsel : select_ddp_class env model process_group s = (inr (c, kw), s1))
    (Henv : COMM_HOOK_TYPE env = Some t)
    (Hunknown : ~ In t ["FP16_COMPRESS"; "POWER_SGD"; "FP16_POWER_SGD";
                        "BATCHED_POWER_SGD"; "FP16_BATCHED_POWER_SGD"]) :
  let m := {| ddp_class := c; init_kwargs := kw |} in
  DistributedFairseqModel env model process_group s
  = (inl (ValueError
            "Unknown value of the environment variable COMM_HOOK_TYPE."),
     {| st_args := st_args s1;
        st_trace :=
          st_trace s
          ++ [Construct m;
              Print " =================================================== ";
              Print ("DDP communication hook " ++ t ++ " is registered")%string;
              Print " =================================================== ";
              NewPowerSGDState
                {| ps_process_group := process_group;
                   matrix_approximation_rank := 1;
                   start_powerSGD_iter := 2 |}] |}).
Proof.
  intros m.
  rewrite (@DistributedFairseqModel_run env model process_group s s1 c kw
             Hsel).
  cbv zeta.
  rewrite register_hook_from_env_run, hook_prelude_after_construct, Henv.
  repeat match goal with
         | |- context [if String.eqb t ?v then _ else _] =>
             destruct (String.eqb_spec t v) as [E|_];
             [exfalso; apply Hunknown; rewrite E; cbn; tauto|]
         end.
  reflexivity.
Qed.

Lemma unknown_comm_hook_raises_late_witness :
  fst (DistributedFairseqModel (sample_env false (Some "TOP_K"))
         sample_model sample_group
         (start (sample_args false "DDP" "no_c10d" None 8)))
  = inl (ValueError
           "Unknown value of the environment variable COMM_HOOK_TYPE.").
Proof.
  pose proof
    (@unknown_comm_hook_raises_late
       (sample_env false (Some "TOP_K")) sample_model sample_group
       (start (sample_args false "DDP" "no_c10d" None 8)) _ _ _ "TOP_K"
       (@select_legacy (sample_env false (Some "TOP_K")) sample_model
          sample_group (start (sample_args false "DDP" "no_c10d" None 8))
          eq_refl eq_refl eq_refl)
       eq_refl) as H.
  cbv zeta in H. rewrite H; [reflexivity|].
  cbn. intros [E|[E|[E|[E|[E|[]]]]]]; discriminate E.
Defined.

(** X14.  With [COMM_HOOK_TYPE] set to [FP16_COMPRESS] every call whose
    selection succeeds ends in [NameError] for the name [ddp], whatever the
    class of the wrapper, after the wrapper has been constructed and the
    PowerSGD state created; no hook is registered. *)
Theorem fp16_compress_always_raises
    (env : Env) (model : NNModule) (process_group : ProcessGroup)
    (s s1 : St) (c : DDPClass) (kw : Kwargs)
    (Hsel : select_ddp_class env model process_group s = (inr (c, kw), s1))
    (Henv : COMM_HOOK_TYPE env = Some "FP16_COMPRESS") :
  let m := {| ddp_class := c; init_kwargs := kw |} in
  DistributedFairseqModel env model process_group s
  = (inl (NameError "ddp"),
     {| st_args := st_args s1;
        st_trace :=
          st_trace s
          ++ [Construct m;
              Print " =================================================== ";
              Print "DDP communication hook FP16_COMPRESS is registered";
              Print " =================================================== ";
              NewPowerSGDState
                {| ps_process_group := process_group;
                   matrix_approximation_rank := 1;
                   start_powerSGD_iter := 2 |}] |}).
Proof.
  intros m.
  rewrite (@DistributedFairseqModel_run env model process_group s s1 c kw
             Hsel).
  cbv zeta.
  rewrite register_hook_from_env_run, hook_prelude_after_construct, Henv.
  reflexivity.
Qed.

Lemma fp16_compress_always_raises_witness :
  fst (DistributedFairseqModel (sample_env false (Some "FP16_COMPRESS"))
         sample_model sample_group
         (start (sample_args true "DDP" "c10d" None 8)))
  = inl (NameError "ddp").
Proof.
  pose proof
    (@fp16_compress_always_raises
       (sample_env false (Some "FP16_COMPRESS")) sample_model sample_group
       (start (sample_args true "DDP" "c10d" None 8)) _ _ _
       (@select_tpu (sample_env false (Some "FP16_COMPRESS")) sample_model
          sample_group (start (sample_args true "DDP" "c10d" None 8))
          eq_refl)
       eq_refl) as H.
  cbv zeta in H. now rewrite H.
Defined.

(** ** Attribute lookup on the wrapper *)

(** X15.  Failures other than the model's [AttributeError] pass through the
    wrapper unchanged.  While the wrapper holds no [module] entry, every
    name that ordinary lookup does not find fails with the failure for
    [module], not for the name asked, and no other object is consulted.  An
    exception of another kind raised by the model for a name comes out as
    it is, after a single lookup on the model. *)
Theorem lookup_failures_pass_through
    (Value : Type) (wrapper_namespace : string -> option Value)
    (super_getattr : string -> Exn + Value)
    (getattr : Value -> string -> Exn + Value) (name : string)
    (Hordinary : wrapper_namespace name = None) :
  let lookup := wrapper_lookup wrapper_namespace super_getattr getattr in
  (forall e, super_getattr "module" = inl e -> lookup name = (inl e, []))
  /\ (forall wrapped e,
         super_getattr "module" = inr wrapped ->
         getattr wrapped name = inl e ->
         (forall cls n, e <> AttributeError cls n) ->
         lookup name = (inl e, [(wrapped, name)])).
Proof.
  intros lookup. unfold lookup, wrapper_lookup, __getattr__, hasattr.
  rewrite Hordinary. split.
  - intros e He. now rewrite He.
  - intros wrapped e Hmod Hget Hkind. rewrite Hmod, Hget.
    destruct e; try reflexivity. now destruct (Hkind cls name0).
Qed.

Lemma lookup_failures_pass_through_witness :
  wrapper_lookup (obj_namespace sample_wrapped)
                 (nn_Module_getattr sample_wrapped) obj_getattr "decoder"
  = (inl (AttributeError "TransformerModel" "module"), []).
Proof.
  apply (@lookup_failures_pass_through Obj (obj_namespace sample_wrapped)
           (nn_Module_getattr sample_wrapped) obj_getattr "decoder" eq_refl).
  reflexivity.
Defined.

(** X16.  When the wrapper holds its [module] entry and the model fails for
    a name only with [AttributeError], lookup of the name on the wrapper
    succeeds exactly when ordinary lookup on the wrapper finds it, or the
    model has it, or the extended class holds an entry for it. *)
Theorem lookup_succeeds_iff
    (Value : Type) (wrapper_namespace : string -> option Value)
    (super_getattr : string -> Exn + Value)
    (getattr : Value -> string -> Exn + Value)
    (name : string) (wrapped : Value)
    (Hmodule : super_getattr "module" = inr wrapped)
    (Hkind : forall e, getattr wrapped name = inl e ->
                       exists cls n, e = AttributeError cls n) :
  (exists v,
      fst (wrapper_lookup wrapper_namespace super_getattr getattr name)
      = inr v)
  <-> ((exists v, wrapper_namespace name = Some v)
       \/ (exists v, getattr wrapped name = inr v)
       \/ (exists v, super_getattr name = inr v)).
Proof.
  unfold wrapper_lookup, __getattr__, hasattr.
  destruct (wrapper_namespace name) as [v0|] eqn:Hns.
  { split; [intros _; left; now exists v0 | intros _; now exists v0]. }
  rewrite Hmodule.
  destruct (getattr wrapped name) as [e|v1] eqn:Hget.
  - destruct (Hkind e eq_refl) as (cls & n & ->). cbn [fst]. split.
    + intros [v Hv]. right. right. now exists v.
    + intros [[v Hv]|[[v Hv]|[v Hv]]]; try discriminate. now exists v.
  - cbn [fst]. split.
    + intros _. right. left. now exists v1.
    + intros _. now exists v1.
Qed.

Lemma lookup_succeeds_iff_witness :
  (exists v, fst (sample_lookup "encoder_layers") = inr v)
  /\ ~ (exists v, fst (sample_lookup "decoder") = inr v).
Proof.
  split.
  - apply (@lookup_succeeds_iff Obj (obj_namespace sample_wrapper)
             (nn_Module_getattr sample_wrapper) obj_getattr
             "encoder_layers" sample_wrapped eq_refl).
    + intros e H. discriminate H.
    + right. left. eexists. reflexivity.
  - intros H.
    apply (@lookup_succeeds_iff Obj (obj_namespace sample_wrapper)
             (nn_Module_getattr sample_wrapper) obj_getattr
             "decoder" sample_wrapped eq_refl) in H.
    + destruct H as [[v Hv]|[[v Hv]|[v Hv]]]; discriminate Hv.
    + intros e He. injection He as <-. now do 2 eexists.
Defined.

(** X17.  A name the wrapped model has is answered by the model whatever
    the extended class holds under that name for the wrapper, and the model
    is looked up twice for it: once by [hasattr], once by [getattr]. *)
Theorem model_answers_first_and_twice
    (Value : Type) (wrapper_namespace : string -> option Value)
    (super_getattr super_getattr' : string -> Exn + Value)
    (getattr : Value -> string -> Exn + Value)
    (name : string) (wrapped v : Value)
    (Hordinary : wrapper_namespace name = None)
    (Hmodule : super_getattr "module" = inr wrapped)
    (Hmodule' : super_getattr' "module" = inr wrapped)
    (Hmodel : getattr wrapped name = inr v) :
  wrapper_lookup wrapper_namespace super_getattr getattr name
  = (inr v, [(wrapped, name); (wrapped, name)])
  /\ wrapper_lookup wrapper_namespace super_getattr' getattr name
     = wrapper_lookup wrapper_namespace super_getattr getattr name.
Proof.
  unfold wrapper_lookup, __getattr__, hasattr.
  now rewrite Hordinary, Hmodule, Hmodule', Hmodel.
Qed.

Lemma model_answers_first_and_twice_witness :
  sample_lookup "encoder_layers"
  = (inr (OInt 6), [(sample_wrapped, "encoder_layers");
                    (sample_wrapped, "encoder_layers")]).
Proof.
  apply (@model_answers_first_and_twice Obj (obj_namespace sample_wrapper)
           (nn_Module_getattr sample_wrapper)
           (nn_Module_getattr sample_wrapper) obj_getattr
           "encoder_layers" sample_wrapped (OInt 6)
           eq_refl eq_refl eq_refl eq_refl).
Defined.

(** ** Further properties of the accelerator-native reduction *)

Lemma zero_fill_data (p : Param) : data (zero_fill p) = data p.
Proof.
  unfold zero_fill. destruct (requires_grad p); [|reflexivity].
  destruct (grad p); reflexivity.
Qed.

Lemma zero_fill_with_gradient (p : Param) (g : Tensor) :
  grad p = Some g -> zero_fill p = p.
Proof.
  intros H. unfold zero_fill. rewrite H. now destruct (requires_grad p).
Qed.

Lemma fill_until_offending_frame (ps : list Param) :
  map data (fill_until_offending ps) = map data ps
  /\ map requires_grad (fill_until_offending ps) = map requires_grad ps.
Proof.
  induction ps as [|p rest [IHd IHr]]; [now split|].
  cbn. destruct (offending p); [now split|].
  cbn. now rewrite IHd, IHr, zero_fill_data, zero_fill_requires_grad.
Qed.

Lemma store_gradients_frame (ps : list Param) (reduced : list Tensor) :
  map data (store_gradients ps reduced) = map data ps
  /\ map requires_grad (store_gradients ps reduced) = map requires_grad ps.
Proof.
  revert reduced. induction ps as [|p rest IH]; intros reduced; [now split|].
  cbn [store_gradients]. destruct (requires_grad p) eqn:Hr.
  - destruct reduced as [|g reduced]; [now split|].
    destruct (IH reduced) as [IHd IHr].
    cbn [map assign_grad data requires_grad]. now rewrite IHd, IHr, Hr.
  - destruct (IH reduced) as [IHd IHr]. cbn [map]. now rewrite IHd, IHr.
Qed.

Lemma map_zero_fill_frame (ps : list Param) :
  map data (map zero_fill ps) = map data ps
  /\ map requires_grad (map zero_fill ps) = map requires_grad ps.
Proof.
  rewrite !map_map. split; apply map_ext; intros p.
  - apply zero_fill_data.
  - apply zero_fill_requires_grad.
Qed.

(** What the call leaves alone, whatever its outcome. *)
Lemma all_reduce_grads_frame
    (self : TPUDistributedDataParallel_obj) (peers : list (list Tensor)) :
  let self' := snd (fst (all_reduce_grads self peers)) in
  map data (parameters self') = map data (parameters self)
  /\ map requires_grad (parameters self')
     = map requires_grad (parameters self)
  /\ List.length (parameters self') = List.length (parameters self)
  /\ module_class (self_module self') = module_class (self_module self)
  /\ self_process_group self' = self_process_group self
  /\ self_world_size self' = self_world_size self.
Proof.
  intros self'.
  assert (H : exists ps',
             self' = with_parameters self ps'
             /\ map data ps' = map data (parameters self)
             /\ map requires_grad ps' = map requires_grad (parameters self)).
  { unfold self'. rewrite all_reduce_grads_run.
    destruct (existsb offending (parameters self)).
    - eexists. split; [reflexivity|]. apply fill_until_offending_frame.
    - destruct (self_world_size self =? 0)%Z; cbn [fst snd].
      + eexists. split; [reflexivity|]. apply map_zero_fill_frame.
      + eexists. split; [reflexivity|].
        destruct (store_gradients_frame
                    (map zero_fill (parameters self))
                    (xm_all_reduce (1 / IZR (self_world_size self))
                       (flat_map contribution (parameters self)) peers))
          as [Hd Hr].
        destruct (map_zero_fill_frame (parameters self)) as [Hd' Hr'].
        split; congruence. }
  destruct H as (ps' & -> & Hd & Hr).
  rewrite parameters_with_parameters.
  repeat split; try assumption.
  rewrite <- (length_map data ps'), Hd. apply length_map.
Qed.

(** X18.  Whatever the outcome, the call writes to gradient slots only: the
    parameters keep their number, their order, their contents and their
    [requires_grad] flags, and the wrapper keeps its model class, its
    process group and its world size. *)
Theorem all_reduce_grads_writes_gradients_only
    (self : TPUDistributedDataParallel_obj) (peers : list (list Tensor)) :
  let self' := snd (fst (all_reduce_grads self peers)) in
  map data (parameters self') = map data (parameters self)
  /\ map requires_grad (parameters self')
     = map requires_grad (parameters self)
  /\ List.length (parameters self') = List.length (parameters self)
  /\ module_class (self_module self') = module_class (self_module self)
  /\ self_process_group self' = self_process_group self
  /\ self_world_size self' = self_world_size self.
Proof. apply all_reduce_grads_frame. Qed.

Lemma fill_until_offending_nth (ps : list Param) (i : nat) (p : Param) :
  nth_error ps i = Some p ->
  nth_error (fill_until_offending ps) i = Some p
  \/ nth_error (fill_until_offending ps) i = Some (zero_fill p).
Proof.
  revert i. induction ps as [|q rest IH]; intros i Hi.
  - destruct i; discriminate.
  - cbn. destruct (offending q); [now left|].
    destruct i as [|i]; cbn in *.
    + injection Hi as ->. now right.
    + now apply IH.
Qed.

(** X19.  When the call fails, with whichever error, every gradient that
    was present before the call is still in place, unchanged: a failed call
    has written nothing but zero tensors into empty slots. *)
Theorem failed_call_keeps_gradients
    (self : TPUDistributedDataParallel_obj) (peers : list (list Tensor))
    (e : Exn) (i : nat) (p : Param) (g : Tensor)
    (Hfailed : fst (fst (all_reduce_grads self peers)) = inl e)
    (Hparam : nth_error (parameters self) i = Some p)
    (Hgrad : grad p = Some g) :
  nth_error (parameters (snd (fst (all_reduce_grads self peers)))) i
  = Some p.
Proof.
  rewrite all_reduce_grads_run in *.
  destruct (existsb offending (parameters self)) eqn:Hoff; cbn [fst snd] in *.
  - rewrite parameters_with_parameters.
    destruct (fill_until_offending_nth _ _ Hparam) as [H|H]; rewrite H;
      [reflexivity | now rewrite (zero_fill_with_gradient _ Hgrad)].
  - destruct (self_world_size self =? 0)%Z; cbn [fst snd] in *;
      [|discriminate Hfailed].
    rewrite parameters_with_parameters, nth_error_map, Hparam. cbn.
    now rewrite (zero_fill_with_gradient _ Hgrad).
Qed.

Lemma failed_call_keeps_gradients_witness :
  nth_error
    (parameters
       (snd (fst (all_reduce_grads
                    (sample_tpu [trained_param; fresh_param;
                                 second_order_param]) []))))
    0
  = Some trained_param.
Proof.
  apply (@failed_call_keeps_gradients
           (sample_tpu [trained_param; fresh_param; second_order_param]) []
           (RuntimeError TPU_error) 0 trained_param
           {| values := [2]%R; tensor_requires_grad := false |});
    reflexivity.
Defined.

(** *** Leaf gradients are kept by the collective *)

Lemma contribution_leaf (ps : list Param) :
  existsb offending ps = false -> Forall leaf (flat_map contribution ps).
Proof.
  induction ps as [|p rest IH]; [constructor|].
  cbn [existsb flat_map]. intros H. apply orb_false_iff in H.
  destruct H as [Hp Hrest]. apply Forall_app. split; [|now apply IH].
  unfold contribution, offending in *.
  destruct (requires_grad p); [|constructor].
  destruct (grad p) as [g|]; repeat constructor. exact Hp.
Qed.

Lemma zip_add_leaf (acc contrib : list Tensor) :
  Forall leaf acc ->
  Forall leaf (map (fun ab => tensor_add (fst ab) (snd ab))
                   (combine acc contrib)).
Proof.
  intros H. revert contrib.
  induction H as [|a acc Ha _ IH]; intros contrib; [constructor|].
  destruct contrib as [|c contrib]; [constructor|].
  cbn. constructor; [exact Ha | apply IH].
Qed.

Lemma xm_all_reduce_leaf
    (c : R) (gs : list Tensor) (peers : list (list Tensor)) :
  Forall leaf gs -> Forall leaf (xm_all_reduce c gs peers).
Proof.
  intros H. unfold xm_all_reduce.
  assert (Hsum : Forall leaf
                   (fold_left
                      (fun acc contrib =>
                         map (fun ab => tensor_add (fst ab) (snd ab))
                             (combine acc contrib)) peers gs)).
  { revert gs H. induction peers as [|q peers IH]; intros gs H; [exact H|].
    cbn [fold_left]. apply IH. now apply zip_add_leaf. }
  induction Hsum; cbn; constructor; assumption.
Qed.

Lemma zero_fill_has_leaf_gradient (p : Param) :
  offending p = false -> has_leaf_gradient (zero_fill p) = true.
Proof.
  unfold offending, has_leaf_gradient, zero_fill.
  destruct (requires_grad p) eqn:Hr; cbn [andb negb orb].
  - destruct (grad p) as [g|] eqn:Hg.
    + rewrite Hr, Hg. cbn. now intros ->.
    + intros _. cbn. now rewrite Hr.
  - now rewrite Hr.
Qed.

Lemma store_gradients_has_leaf_gradient
    (ps : list Param) (reduced : list Tensor) :
  forallb has_leaf_gradient ps = true -> Forall leaf reduced ->
  forallb has_leaf_gradient (store_gradients ps reduced) = true.
Proof.
  revert reduced. induction ps as [|p rest IH]; intros reduced Hps Hred;
    [reflexivity|].
  cbn [forallb] in Hps. apply andb_true_iff in Hps. destruct Hps as [Hp Hrest].
  cbn [store_gradients]. destruct (requires_grad p) eqn:Hr.
  - destruct Hred as [|g reduced Hg Hred].
    + cbn [forallb]. now rewrite Hp, Hrest.
    + cbn [forallb]. rewrite (IH reduced Hrest Hred).
      unfold has_leaf_gradient. cbn. unfold leaf in Hg. rewrite Hg.
      now destruct (requires_grad p).
  - cbn [forallb]. now rewrite Hp, (IH reduced Hrest Hred).
Qed.

Lemma has_leaf_gradient_not_offending (ps : list Param) :
  forallb has_leaf_gradient ps = true -> existsb offending ps = false.
Proof.
  induction ps as [|p rest IH]; [reflexivity|].
  cbn. intros H. apply andb_true_iff in H. destruct H as [Hp Hrest].
  rewrite (IH Hrest), orb_false_r.
  unfold has_leaf_gradient, offending in *.
  destruct (requires_grad p); [|reflexivity]. cbn in *.
  destruct (grad p) as [g|]; [|reflexivity].
  now destruct (tensor_requires_grad g).
Qed.

(** X20.  A call that succeeds leaves every parameter that requires a
    gradient with a gradient that does not itself require differentiation;
    hence a further call, with whatever peers, cannot raise the error of
    lines 175-178. *)
Theorem successful_call_leaves_leaf_gradients
    (self : TPUDistributedDataParallel_obj)
    (peers peers' : list (list Tensor))
    (Hok : fst (fst (all_reduce_grads self peers)) = inr tt) :
  let self' := snd (fst (all_reduce_grads self peers)) in
  (forall p, In p (parameters self') -> requires_grad p = true ->
             exists g, grad p = Some g /\ tensor_requires_grad g = false)
  /\ forall msg,
       fst (fst (all_reduce_grads self' peers')) <> inl (RuntimeError msg).
Proof.
  intros self'.
  assert (Hleaf : forallb has_leaf_gradient (parameters self') = true).
  { unfold self'. rewrite all_reduce_grads_run in *.
    destruct (existsb offending (parameters self)) eqn:Hoff;
      [discriminate Hok|].
    destruct (self_world_size self =? 0)%Z; [discriminate Hok|].
    cbn [fst snd]. rewrite parameters_with_parameters.
    apply store_gradients_has_leaf_gradient.
    - rewrite forallb_forall. intros q Hq. apply in_map_iff in Hq.
      destruct Hq as (p & <- & Hp). apply zero_fill_has_leaf_gradient.
      destruct (offending p) eqn:E; [|reflexivity].
      assert (existsb offending (parameters self) = true)
        by (apply existsb_exists; now exists p).
      congruence.
    - apply xm_all_reduce_leaf. now apply contribution_leaf. }
  split.
  - intros p Hin Hr. rewrite forallb_forall in Hleaf.
    specialize (Hleaf p Hin). unfold has_leaf_gradient in Hleaf.
    rewrite Hr in Hleaf. cbn in Hleaf.
    destruct (grad p) as [g|]; [|discriminate].
    exists g. split; [reflexivity|]. now destruct (tensor_requires_grad g).
  - intros msg. rewrite all_reduce_grads_run.
    rewrite (has_leaf_gradient_not_offending _ Hleaf).
    destruct (self_world_size self' =? 0)%Z; discriminate.
Qed.

Lemma successful_call_leaves_leaf_gradients_witness :
  fst (fst (all_reduce_grads
              (snd (fst (all_reduce_grads
                           (sample_tpu [frozen_param; fresh_param;
                                        trained_param]) [])))
              []))
  <> inl (RuntimeError TPU_error).
Proof.
  apply (@successful_call_leaves_leaf_gradients
           (sample_tpu [frozen_param; fresh_param; trained_param]) [] []).
  reflexivity.
Defined.

(** X21.  Where every gradient that is present has the shape of its
    parameter, the tensors handed to the collective have the shapes of the
    parameters that require gradients, in order, whichever of their
    gradients were absent: members that skipped different parameters still
    issue collectives of the same layout. *)
Theorem collective_layout_is_uniform
    (self : TPUDistributedDataParallel_obj) (peers : list (list Tensor))
    (call : XlaAllReduce)
    (Hshapes : forall p g, In p (parameters self) -> grad p = Some g ->
                           shape g = List.length (data p))
    (Hcall : In call (snd (all_reduce_grads self peers))) :
  map shape (inputs call)
  = map (fun p => List.length (data p))
        (filter requires_grad (parameters self)).
Proof.
  rewrite all_reduce_grads_run in Hcall.
  destruct (existsb offending (parameters self)); [destruct Hcall|].
  destruct (self_world_size self =? 0)%Z; [destruct Hcall|].
  destruct Hcall as [<-|[]]. cbn [inputs].
  induction (parameters self) as [|p rest IH]; [reflexivity|].
  cbn [flat_map filter]. rewrite map_app.
  rewrite IH by (intros q g Hq; apply Hshapes; now right).
  unfold contribution.
  destruct (requires_grad p); [|reflexivity].
  destruct (grad p) as [g|] eqn:Hg; cbn [map app].
  - f_equal. apply Hshapes; [now left | exact Hg].
  - f_equal. unfold shape, zeros_like. cbn. apply repeat_length.
Qed.

Lemma collective_layout_is_uniform_witness :
  map shape
      (inputs
         {| reduce_type := "sum";
            inputs := [{| values := [0; 0; 0]%R;
                          tensor_requires_grad := false |};
                       {| values := [2]%R; tensor_requires_grad := false |}];
            scale := (1 / IZR 4)%R;
            groups := [[0; 1; 2; 3]%Z] |})
  = [3; 1]%nat.
Proof.
  apply (@collective_layout_is_uniform
           (sample_tpu [frozen_param; fresh_param; trained_param]) []).
  - intros p g [<-|[<-|[<-|[]]]] Hg; try discriminate.
    injection Hg as <-. reflexivity.
  - left. reflexivity.
Defined.

(** *** Members of one collective end with the same gradients *)










(** X23.  Reducing the gradients does not change what the model computes:
    for a module whose output depends on its class and on the contents of
    its parameters only, [forward] gives the same output after a call of
    [all_reduce_grads], whatever the outcome of that call, as before it. *)
Theorem forward_unchanged_by_reduction
    (Input Output : Type) (call_module : NNModule -> Input -> Output)
    (self : TPUDistributedDataParallel_obj) (peers : list (list Tensor))
    (inputs : Input)
    (Hdata : forall m m',
        module_class m = module_class m' ->
        map data (module_parameters m) = map data (module_parameters m') ->
        call_module m inputs = call_module m' inputs) :
  forward call_module (snd (fst (all_reduce_grads self peers))) inputs
  = forward call_module self inputs.
Proof.
  unfold forward.
  destruct (all_reduce_grads_frame self peers) as (Hd & _ & _ & Hc & _).
  apply Hdata; assumption.
Qed.

Lemma forward_unchanged_by_reduction_witness :
  forward (fun m (x : R) =>
             fold_right Rplus x (flat_map data (module_parameters m)))
    (snd (fst (all_reduce_grads
                 (sample_tpu [frozen_param; fresh_param; trained_param]) [])))
    1%R
  = forward (fun m (x : R) =>
               fold_right Rplus x (flat_map data (module_parameters m)))
      (sample_tpu [frozen_param; fresh_param; trained_param]) 1%R.
Proof.
  apply (@forward_unchanged_by_reduction R R
           (fun m (x : R) =>
              fold_right Rplus x (flat_map data (module_parameters m)))).
  intros m m' _ Hd. cbn beta.
  rewrite !flat_map_concat_map. now rewrite Hd.
Defined.
